(** * Task-App-Project: TaskCard and TaskForm

    A shallow embedding of the two components that carry logic,
    [src/components/TaskCard.tsx] and the task form (TaskForm), together
    with the small part of the JavaScript host they rely on ([Date],
    truthiness), the zod schema of the form and the react-hook-form submit
    wrapper.  Handlers are written in a state/trace/exception monad: the
    component state is threaded, every externally visible action (remote
    request, callback, notification) is recorded in order, and [throw] /
    [try-catch-finally] follow JavaScript. *)

From Stdlib Require Import String Ascii List ZArith Lia Bool.
Import ListNotations.
Open Scope string_scope.
Open Scope Z_scope.

(* ===================================================================== *)
(** ** The JavaScript host *)
(* ===================================================================== *)

Module JS.

(** Strings stand for JavaScript strings; one character is one code unit,
    so [String.length] is the [.length] property. *)

(** [!!s] for a value of type [string | undefined]. *)
Definition truthy (s : option string) : bool :=
  match s with
  | None => false
  | Some s => negb (s =? "")%string
  end.

(** [a || b] where [a : string | undefined]. *)
Definition or_else {A} (a : option string) (inj : string -> A) (b : A) : A :=
  match a with
  | Some s => if (s =? "")%string then b else inj s
  | None => b
  end.

(** *** Time values *)

Definition msPerDay : Z := 86400000.
Definition maxTime : Z := 8640000000000000.

(** A [Date] object holds a time value (milliseconds since the epoch, UTC)
    or NaN ("Invalid Date"), here [None]. *)
Definition Date := option Z.

Definition TimeClip (t : Z) : Date :=
  if Z.abs t <=? maxTime then Some t else None.

(** [a < b] on two Date objects: both are converted to numbers, and every
    comparison with NaN is false. *)
Definition Date_lt (a b : Date) : bool :=
  match a, b with
  | Some x, Some y => x <? y
  | _, _ => false
  end.

(** Days since the epoch of a proleptic Gregorian date, and back. *)
Definition days_from_civil (y m d : Z) : Z :=
  let y' := if m <=? 2 then y - 1 else y in
  let era := y' / 400 in
  let yoe := y' - era * 400 in
  let mp := if m <=? 2 then m + 9 else m - 3 in
  let doy := (153 * mp + 2) / 5 + d - 1 in
  let doe := yoe * 365 + yoe / 4 - yoe / 100 + doy in
  era * 146097 + doe - 719468.

Definition civil_from_days (z : Z) : Z * Z * Z :=
  let z' := z + 719468 in
  let era := z' / 146097 in
  let doe := z' - era * 146097 in
  let yoe := (doe - doe / 1460 + doe / 36524 - doe / 146096) / 365 in
  let doy := doe - (365 * yoe + yoe / 4 - yoe / 100) in
  let mp := (5 * doy + 2) / 153 in
  let d := doy - (153 * mp + 2) / 5 + 1 in
  let m := if mp <? 10 then mp + 3 else mp - 9 in
  let y := yoe + era * 400 in
  (if m <=? 2 then y + 1 else y, m, d).

Definition is_leap (y : Z) : bool :=
  ((y mod 4 =? 0) && negb (y mod 100 =? 0)) || (y mod 400 =? 0).

Definition days_in_month (y m : Z) : Z :=
  if m =? 2 then (if is_leap y then 29 else 28)
  else if (m =? 4) || (m =? 6) || (m =? 9) || (m =? 11) then 30
  else 31.

(** *** Date.prototype.toISOString *)

Definition digit (n : Z) : ascii :=
  ascii_of_nat (48 + Z.to_nat (n mod 10)).

Definition pad2 (n : Z) : string :=
  String (digit (n / 10)) (String (digit n) "").

Definition pad3 (n : Z) : string :=
  String (digit (n / 100)) (pad2 n).

Definition pad4 (n : Z) : string :=
  String (digit (n / 1000)) (pad3 n).

Definition pad6 (n : Z) : string :=
  String (digit (n / 100000)) (String (digit (n / 10000)) (pad4 n)).

(** Years 0..9999 are printed with four digits, all others as an expanded
    year: a sign and six digits. *)
Definition iso_year (y : Z) : string :=
  if (0 <=? y) && (y <=? 9999) then pad4 y
  else (if y <? 0 then "-" else "+") ++ pad6 (Z.abs y).

(** The text [toISOString] returns for a valid time value:
    [YYYY-MM-DDTHH:mm:ss.sssZ], always in UTC. *)
Definition iso_of_time (t : Z) : string :=
  let '(y, m, d) := civil_from_days (t / msPerDay) in
  let ms := t mod msPerDay in
  iso_year y ++ "-" ++ pad2 m ++ "-" ++ pad2 d ++ "T"
    ++ pad2 (ms / 3600000) ++ ":" ++ pad2 (ms / 60000 mod 60) ++ ":"
    ++ pad2 (ms / 1000 mod 60) ++ "." ++ pad3 (ms mod 1000) ++ "Z".

(** *** What the host decides *)

(** [Date_now] is the clock read by [new Date()]; [LocalTZA] the offset of
    local time from UTC in milliseconds (taken constant: no daylight-saving
    change); [Date_parse] is [Date.parse], with NaN as [None];
    [invalid_time] is the message of the RangeError that [toISOString]
    throws on an Invalid Date. *)
Record Host := {
  Date_now : Z;
  LocalTZA : Z;
  Date_parse : string -> option Z;
  invalid_time : string
}.

(** [new Date(s)] *)
Definition Date_of_string (H : Host) (s : string) : Date :=
  match Date_parse H s with
  | Some t => TimeClip t
  | None => None
  end.

(** [d = new Date(); d.setHours(0, 0, 0, 0)]: the start of the current
    local day, as a time value. *)
Definition setHours0 (H : Host) (t : Z) : Z :=
  ((t + LocalTZA H) / msPerDay) * msPerDay - LocalTZA H.

(** *** A concrete host

    [Date.parse] restricted to the two shapes this application produces:
    the date-only form [YYYY-MM-DD] of an [<input type="date">] (read as
    UTC midnight) and the [toISOString] form.  Other strings are rejected. *)

Definition is_digit (c : ascii) : bool :=
  let n := Z.of_nat (nat_of_ascii c) in (48 <=? n) && (n <=? 57).

Fixpoint digits_value (acc : Z) (s : string) : option Z :=
  match s with
  | EmptyString => Some acc
  | String c s' =>
      if is_digit c
      then digits_value (acc * 10 + (Z.of_nat (nat_of_ascii c) - 48)) s'
      else None
  end.

Definition number_at (s : string) (pos len : nat) : option Z :=
  let sub := substring pos len s in
  if (String.length sub =? len)%nat then digits_value 0 sub else None.

Definition char_at (s : string) (pos : nat) (c : string) : bool :=
  (substring pos 1 s =? c)%string.

Definition parse_date_part (s : string) : option Z :=
  match number_at s 0 4, number_at s 5 2, number_at s 8 2 with
  | Some y, Some m, Some d =>
      if char_at s 4 "-" && char_at s 7 "-"
         && (1 <=? m) && (m <=? 12) && (1 <=? d) && (d <=? days_in_month y m)
      then Some (days_from_civil y m d * msPerDay)
      else None
  | _, _, _ => None
  end.

Definition parse_time_part (s : string) : option Z :=
  match number_at s 11 2, number_at s 14 2, number_at s 17 2, number_at s 20 3 with
  | Some h, Some mi, Some sec, Some ms =>
      if char_at s 10 "T" && char_at s 13 ":" && char_at s 16 ":"
         && char_at s 19 "." && char_at s 23 "Z"
         && (h <=? 23) && (mi <=? 59) && (sec <=? 59)
      then Some (h * 3600000 + mi * 60000 + sec * 1000 + ms)
      else None
  | _, _, _, _ => None
  end.

Definition parse_iso (s : string) : option Z :=
  if (String.length s =? 10)%nat then parse_date_part s
  else if (String.length s =? 24)%nat then
    match parse_date_part s, parse_time_part s with
    | Some d, Some t => Some (d + t)
    | _, _ => None
    end
  else None.

(** A browser in UTC-05:00 whose clock reads 2024-01-15T15:00:00.000Z. *)
Definition browser : Host := {|
  Date_now := 1705330800000;
  LocalTZA := -18000000;
  Date_parse := parse_iso;
  invalid_time := "Invalid time value"
|}.

(** The same clock in a browser set to UTC. *)
Definition browser_utc : Host := {|
  Date_now := 1705330800000;
  LocalTZA := 0;
  Date_parse := parse_iso;
  invalid_time := "Invalid time value"
|}.

End JS.

(* ===================================================================== *)
(** ** Data shared by the components *)
(* ===================================================================== *)

(** [interface Task], declared identically in both components.  A task is
    what the server sent, cast with [as Task]: [status] and [priority] are
    the strings that arrived. *)
Record Task := {
  id : string;
  title : string;
  description : option string;
  status : string;
  priority : string;
  due_date : option string;
  created_at : string;
  updated_at : string
}.

(** The union ['pending' | 'in_progress' | 'completed'] and its values. *)
Inductive Status := pending | in_progress | completed.

Definition Status_value (s : Status) : string :=
  match s with
  | pending => "pending"
  | in_progress => "in_progress"
  | completed => "completed"
  end.

(** The union ['low' | 'medium' | 'high']. *)
Inductive Priority := low | medium | high.

Definition Priority_value (p : Priority) : string :=
  match p with
  | low => "low"
  | medium => "medium"
  | high => "high"
  end.

(** The authenticated user of [useAuth()]; only [user.id] is read. *)
Record User := { user_id : string }.

(** Values of an object literal sent to the server. *)
Inductive Json := JNull | JStr (s : string).

(** An object literal: its keys in the order written. *)
Definition Object := list (string * Json).

Fixpoint get (k : string) (o : Object) : option Json :=
  match o with
  | [] => None
  | (k', v) :: o' => if (k' =? k)%string then Some v else get k o'
  end.

Definition keys (o : Object) : list string := map fst o.

(** The two query chains of the Supabase client that the components build:
    [from(t).update(v).eq('id', i).select().single()] and
    [from(t).insert(rows).select().single()]. *)
Inductive Request :=
| Update (table : string) (values : Object) (eq_id : string)
| Insert (table : string) (rows : list Object).

(** A thrown or returned error object; only [.message] is read. *)
Record JsError := { message : option string }.

(** What awaiting a query yields: [{ data, error }]. *)
Record Response := {
  data : option Task;
  error : option JsError
}.

(** The argument of [toast]. *)
Record Toast := {
  toast_title : string;
  toast_description : string;
  variant : option string
}.

(** What a handler does that is visible outside the component: a request
    to the server, a call of the parent's [onSave] or [onUpdate] callback,
    a notification.  Callbacks and [toast] are taken to return normally. *)
Inductive Event :=
| Ev_request (r : Request)
| Ev_onSave (t : option Task)
| Ev_onUpdate (t : option Task)
| Ev_toast (t : Toast).

Definition is_request (e : Event) : bool :=
  match e with Ev_request _ => true | _ => false end.

Definition is_onSave (e : Event) : bool :=
  match e with Ev_onSave _ => true | _ => false end.

Definition is_onUpdate (e : Event) : bool :=
  match e with Ev_onUpdate _ => true | _ => false end.

Definition is_toast (e : Event) : bool :=
  match e with Ev_toast _ => true | _ => false end.

(* ===================================================================== *)
(** ** Handlers as computations *)
(* ===================================================================== *)

Module Eff.

(** How a block ends: normally with a value, or by a [throw]. *)
Inductive Completion (A : Type) :=
| Normal (a : A)
| Throw (e : JsError).
Arguments Normal {A} a.
Arguments Throw {A} e.

(** A computation reads the component state [S] and yields the state it
    leaves, the events it produced in order, and how it completed. *)
Definition M (S A : Type) : Type := S -> S * list Event * Completion A.

Section Ops.
Context {S : Type}.

Definition ret {A} (a : A) : M S A := fun s => (s, [], Normal a).

Definition bind {A B} (m : M S A) (k : A -> M S B) : M S B :=
  fun s =>
    match m s with
    | (s1, ev1, Normal a) =>
        let '(s2, ev2, c) := k a s1 in (s2, (ev1 ++ ev2)%list, c)
    | (s1, ev1, Throw e) => (s1, ev1, Throw e)
    end.

Definition throw {A} (e : JsError) : M S A := fun s => (s, [], Throw e).

Definition emit (e : Event) : M S unit := fun s => (s, [e], Normal tt).

Definition modify (f : S -> S) : M S unit := fun s => (f s, [], Normal tt).

(** [try { body } catch (e) { handler e } finally { fin }]: the handler
    runs when the body throws, [fin] runs last in every case, and an
    exception leaving the handler (or [fin]) leaves the statement. *)
Definition try_catch_finally (body : M S unit) (handler : JsError -> M S unit)
    (fin : M S unit) : M S unit :=
  fun s =>
    let '(s1, ev1, c1) :=
      match body s with
      | (s0, ev0, Normal tt) => (s0, ev0, Normal tt)
      | (s0, ev0, Throw e) =>
          let '(s0', ev0', c) := handler e s0 in (s0', (ev0 ++ ev0')%list, c)
      end in
    match fin s1 with
    | (s2, ev2, Normal tt) => (s2, (ev1 ++ ev2)%list, c1)
    | (s2, ev2, Throw e) => (s2, (ev1 ++ ev2)%list, Throw e)
    end.
End Ops.

Declare Scope eff_scope.
Delimit Scope eff_scope with eff.
Notation "x <- m ;; k" := (bind m (fun x => k))
  (at level 61, m at next level, right associativity) : eff_scope.
Notation "' pat <- m ;; k" := (bind m (fun x => match x with pat => k end))
  (at level 61, pat pattern, m at next level, right associativity) : eff_scope.
Notation "m ;; k" := (bind m (fun _ => k))
  (at level 61, right associativity) : eff_scope.

(** Projections of a run. *)
Definition state_of {S A} (r : S * list Event * Completion A) : S := fst (fst r).
Definition trace_of {S A} (r : S * list Event * Completion A) : list Event :=
  snd (fst r).
Definition completion_of {S A} (r : S * list Event * Completion A) : Completion A :=
  snd r.

End Eff.
Import Eff.
Open Scope eff_scope.

(** [await query]: the request goes out and the server's answer comes
    back.  The server is whatever function [supabase] is. *)
Definition await {S} (supabase : Request -> Response) (r : Request) : M S Response :=
  emit (Ev_request r) ;; ret (supabase r).

Definition toast {S} (t : Toast) : M S unit := emit (Ev_toast t).

(** [d.toISOString()]: a RangeError on an Invalid Date. *)
Definition toISOString {S} (H : JS.Host) (d : JS.Date) : M S string :=
  match d with
  | Some t => ret (JS.iso_of_time t)
  | None => throw {| message := Some (JS.invalid_time H) |}
  end.

(** [error.message || fallback] *)
Definition message_or (e : JsError) (fallback : string) : string :=
  JS.or_else (message e) (fun s => s) fallback.

(* ===================================================================== *)
(** ** zod and react-hook-form, as far as the form uses them *)
(* ===================================================================== *)

Module Zod.

(** A validation issue: the field it is about and its message. *)
Record Issue := { path : string; issue_message : string }.

(** [z.string().min(n, m1).max(k, m2)] applied to a string: both checks
    run, each failing check adds its issue. *)
Definition string_min_max (field : string) (n : nat) (m1 : string)
    (k : nat) (m2 : string) (v : string) : list Issue :=
  ((if (String.length v <? n)%nat
    then [{| path := field; issue_message := m1 |}] else [])
   ++ (if (k <? String.length v)%nat
       then [{| path := field; issue_message := m2 |}] else []))%list.

(** [z.enum(options)]: the value must be one of the options. *)
Definition enum {A} (field : string) (options : list (string * A))
    (v : string) : list Issue + A :=
  match find (fun o => (fst o =? v)%string) options with
  | Some o => inr (snd o)
  | None =>
      inl [{| path := field;
              issue_message :=
                "Invalid enum value. Expected "
                ++ String.concat " | " (map (fun o => "'" ++ fst o ++ "'") options)
                ++ ", received '" ++ v ++ "'" |}]
  end.

Definition issues_of {A} (r : list Issue + A) : list Issue :=
  match r with inl i => i | inr _ => [] end.

(** The first issue of a field, which is what the resolver reports as
    [errors.<field>.message]. *)
Definition field_error (field : string) (errs : list Issue) : option string :=
  match find (fun i => (path i =? field)%string) errs with
  | Some i => Some (issue_message i)
  | None => None
  end.

End Zod.

(* ===================================================================== *)
(** ** TaskCard *)
(* ===================================================================== *)

Module TaskCard.

(** [useState(false)]: the [updating] flag that disables the selector. *)
Record State := { updating : bool }.

Definition setUpdating (b : bool) : M State unit :=
  modify (fun _ => {| updating := b |}).

Definition getStatusColor (status : string) : string :=
  if (status =? "pending")%string then
    "bg-yellow-100 text-yellow-800 hover:bg-yellow-200 dark:bg-yellow-900/20 dark:text-yellow-300"
  else if (status =? "in_progress")%string then
    "bg-blue-100 text-blue-800 hover:bg-blue-200 dark:bg-blue-900/20 dark:text-blue-300"
  else if (status =? "completed")%string then
    "bg-green-100 text-green-800 hover:bg-green-200 dark:bg-green-900/20 dark:text-green-300"
  else
    "bg-secondary text-secondary-foreground hover:bg-secondary/80".

Definition getPriorityColor (priority : string) : string :=
  if (priority =? "high")%string then
    "bg-red-100 text-red-800 hover:bg-red-200 dark:bg-red-900/20 dark:text-red-300"
  else if (priority =? "medium")%string then
    "bg-orange-100 text-orange-800 hover:bg-orange-200 dark:bg-orange-900/20 dark:text-orange-300"
  else if (priority =? "low")%string then
    "bg-gray-100 text-gray-800 hover:bg-gray-200 dark:bg-gray-900/20 dark:text-gray-300"
  else
    "bg-secondary text-secondary-foreground hover:bg-secondary/80".

Section Component.
(** The host, the server and the [task] prop. *)
Variable H : JS.Host.
Variable supabase : Request -> Response.
Variable task : Task.

(** [today]: [new Date()] followed by [setHours(0, 0, 0, 0)]. *)
Definition today : JS.Date := Some (JS.setHours0 H (JS.Date_now H)).

Definition isOverdue (dueDateString : option string) : bool :=
  match dueDateString with
  | None => false
  | Some s =>
      if negb (JS.truthy dueDateString) then false
      else
        let dueDate := JS.Date_of_string H s in
        JS.Date_lt dueDate today && negb (status task =? "completed")%string
  end.

Definition handleStatusChange (newStatus : Status) : M State unit :=
  setUpdating true ;;
  try_catch_finally
    ('{| data := updatedTask; error := error |} <-
       await supabase
         (Update "tasks" [("status", JStr (Status_value newStatus))] (id task)) ;;
     match error with
     | Some e => throw e
     | None =>
         emit (Ev_onUpdate updatedTask) ;;
         toast {| toast_title := "Success";
                  toast_description := "Task status updated successfully";
                  variant := None |}
     end)
    (fun error =>
       toast {| toast_title := "Error";
                toast_description := message_or error "Failed to update task status";
                variant := Some "destructive" |})
    (setUpdating false).
End Component.

End TaskCard.

(* ===================================================================== *)
(** ** TaskForm *)
(* ===================================================================== *)

Module TaskForm.

(** The values held by the form's inputs, before validation. *)
Record FormValues := {
  v_title : string;
  v_description : option string;
  v_status : string;
  v_priority : string;
  v_due_date : option string
}.

(** [TaskFormData = z.infer<typeof taskSchema>]: validated values. *)
Record TaskFormData := {
  data_title : string;
  data_description : option string;
  data_status : Status;
  data_priority : Priority;
  data_due_date : option string
}.

(** The title check of [taskSchema]. *)
Definition title_check (v : string) : list Zod.Issue :=
  Zod.string_min_max "title" 1 "Title is required"
    100 "Title must be less than 100 characters" v.

Definition status_check (v : string) : list Zod.Issue + Status :=
  Zod.enum "status"
    [("pending", pending); ("in_progress", in_progress); ("completed", completed)] v.

Definition priority_check (v : string) : list Zod.Issue + Priority :=
  Zod.enum "priority" [("low", low); ("medium", medium); ("high", high)] v.

(** [taskSchema]: every field is checked and the issues are collected in
    the order of the keys; [description] and [due_date] are optional
    strings and raise none. *)
Definition taskSchema (v : FormValues) : list Zod.Issue + TaskFormData :=
  match title_check (v_title v), status_check (v_status v),
        priority_check (v_priority v) with
  | [], inr st, inr pr =>
      inr {| data_title := v_title v;
             data_description := v_description v;
             data_status := st;
             data_priority := pr;
             data_due_date := v_due_date v |}
  | ti, st, pr => inl (ti ++ Zod.issues_of st ++ Zod.issues_of pr)%list
  end.

(** The component state: [loading] of [useState(false)], and of the form
    object the input values and the field errors. *)
Record State := {
  loading : bool;
  form_values : FormValues;
  errors : list Zod.Issue
}.

Definition setLoading (b : bool) : M State unit :=
  modify (fun s => {| loading := b; form_values := form_values s; errors := errors s |}).

Definition setErrors (e : list Zod.Issue) : M State unit :=
  modify (fun s => {| loading := loading s; form_values := form_values s; errors := e |}).

Section Component.
(** The host, the server, the user of [useAuth()] and the [task] prop. *)
Variable H : JS.Host.
Variable supabase : Request -> Response.
Variable user : option User.
Variable task : option Task.

(** The [due_date] entry of [taskData]:
    [data.due_date ? new Date(data.due_date).toISOString() : null]. *)
Definition due_date_entry (data : TaskFormData) : M State Json :=
  match data_due_date data with
  | Some s =>
      if JS.truthy (Some s)
      then iso <- toISOString H (JS.Date_of_string H s) ;; ret (JStr iso)
      else ret JNull
  | None => ret JNull
  end.

(** The object literal [taskData], once its [due_date] entry is known. *)
Definition taskData_literal (u : User) (data : TaskFormData) (due : Json) : Object :=
  [ ("title", JStr (data_title data));
    ("description", JS.or_else (data_description data) JStr JNull);
    ("status", JStr (Status_value (data_status data)));
    ("priority", JStr (Priority_value (data_priority data)));
    ("due_date", due);
    ("user_id", JStr (user_id u)) ].

Definition handleSubmit (data : TaskFormData) : M State unit :=
  match user with
  | None => ret tt
  | Some u =>
      setLoading true ;;
      try_catch_finally
        (due <- due_date_entry data ;;
         let taskData := taskData_literal u data due in
         match task with
         | Some t =>
             '{| data := updatedTask; error := error |} <-
               await supabase (Update "tasks" taskData (id t)) ;;
             match error with
             | Some e => throw e
             | None =>
                 emit (Ev_onSave updatedTask) ;;
                 toast {| toast_title := "Success";
                          toast_description := "Task updated successfully";
                          variant := None |}
             end
         | None =>
             '{| data := newTask; error := error |} <-
               await supabase (Insert "tasks" [taskData]) ;;
             match error with
             | Some e => throw e
             | None =>
                 emit (Ev_onSave newTask) ;;
                 toast {| toast_title := "Success";
                          toast_description := "Task created successfully";
                          variant := None |}
             end
         end)
        (fun error =>
           toast {| toast_title := "Error";
                    toast_description := message_or error "Failed to save task";
                    variant := Some "destructive" |})
        (setLoading false)
  end.

(** [form.handleSubmit(handleSubmit)], the [onSubmit] of the form: the
    resolver runs [taskSchema] on the current values; with issues they
    become the field errors and the handler is not called, otherwise the
    errors are cleared and the handler receives the validated data. *)
Definition onSubmit : M State unit :=
  fun s =>
    match taskSchema (form_values s) with
    | inl issues => setErrors issues s
    | inr data => (setErrors [] ;; handleSubmit data) s
    end.
End Component.

(** *** Vocabulary for the statements *)

(** How the evaluation of the [due_date] entry ends on host [H]: with the
    value of the entry, or with the RangeError of [toISOString]. *)
Definition due_date_outcome (H : JS.Host) (data : TaskFormData) : JsError + Json :=
  match data_due_date data with
  | Some s =>
      if JS.truthy (Some s) then
        match JS.Date_of_string H s with
        | Some t => inr (JStr (JS.iso_of_time t))
        | None => inl {| message := Some (JS.invalid_time H) |}
        end
      else inr JNull
  | None => inr JNull
  end.

(** The request a submission makes for payload [p]: an update of the
    supplied task's row, or an insert of one row. *)
Definition save_request (task : option Task) (p : Object) : Request :=
  match task with
  | Some t => Update "tasks" p (id t)
  | None => Insert "tasks" [p]
  end.

Definition error_toast (e : JsError) : Toast :=
  {| toast_title := "Error";
     toast_description := message_or e "Failed to save task";
     variant := Some "destructive" |}.

Definition success_toast (task : option Task) : Toast :=
  {| toast_title := "Success";
     toast_description :=
       match task with
       | Some _ => "Task updated successfully"
       | None => "Task created successfully"
       end;
     variant := None |}.

(** The state a submission leaves when a user is signed in. *)
Definition settled (s : State) : State :=
  {| loading := false; form_values := form_values s; errors := errors s |}.

(** The events of a submission by user [u], read off the handler: the
    rejected date, the failed request, or the successful one. *)
Definition submit_events (H : JS.Host) (supabase : Request -> Response)
    (u : User) (task : option Task) (fd : TaskFormData) : list Event :=
  match due_date_outcome H fd with
  | inl e => [Ev_toast (error_toast e)]
  | inr due =>
      let req := save_request task (taskData_literal u fd due) in
      match error (supabase req) with
      | Some e => [Ev_request req; Ev_toast (error_toast e)]
      | None =>
          [Ev_request req; Ev_onSave (data (supabase req));
           Ev_toast (success_toast task)]
      end
  end.

(** A plain date string: ten characters, [YYYY-MM-DD]. *)
Definition plain_date_string (s : string) : bool :=
  (String.length s =? 10)%nat
  && match JS.number_at s 0 4, JS.number_at s 5 2, JS.number_at s 8 2 with
     | Some _, Some _, Some _ => JS.char_at s 4 "-" && JS.char_at s 7 "-"
     | _, _, _ => false
     end.

(** The reading "stored as a plain date string" of a submission in state
    [s]: when the due-date field is filled in, every request sent carries
    a [due_date] that is a plain date string. *)
Definition sends_plain_date (H : JS.Host) (supabase : Request -> Response)
    (user : option User) (task : option Task) (s : State) : Prop :=
  JS.truthy (v_due_date (form_values s)) = true ->
  forall req p,
    In (Ev_request req) (trace_of (onSubmit H supabase user task s)) ->
    req = save_request task p ->
    exists d, get "due_date" p = Some (JStr d) /\ plain_date_string d = true.

End TaskForm.

(* ===================================================================== *)
(** ** Sample data *)
(* ===================================================================== *)

Module Sample.

(** A pending task that was due on 2024-01-14. *)
Definition report : Task := {|
  id := "t-1";
  title := "Write report";
  description := None;
  status := "pending";
  priority := "high";
  due_date := Some "2024-01-14T00:00:00.000Z";
  created_at := "2024-01-01T09:30:00.000Z";
  updated_at := "2024-01-02T10:00:00.000Z"
|}.

Definition with_status (t : Task) (s : string) : Task := {|
  id := id t; title := title t; description := description t;
  status := s; priority := priority t; due_date := due_date t;
  created_at := created_at t; updated_at := updated_at t
|}.

Definition alice : User := {| user_id := "u-42" |}.

(** A server that answers every request with the stored [report]. *)
Definition server_ok (_ : Request) : Response :=
  {| data := Some report; error := None |}.

(** A server that fails every request. *)
Definition server_down (_ : Request) : Response :=
  {| data := None; error := Some {| message := Some "Failed to fetch" |} |}.

(** A server whose error carries no message. *)
Definition server_mute (_ : Request) : Response :=
  {| data := None; error := Some {| message := None |} |}.

Definition filled : TaskForm.FormValues := {|
  TaskForm.v_title := "Write report";
  TaskForm.v_description := Some "";
  TaskForm.v_status := "pending";
  TaskForm.v_priority := "medium";
  TaskForm.v_due_date := Some "2024-01-15"
|}.

Definition with_title (v : TaskForm.FormValues) (t : string) : TaskForm.FormValues := {|
  TaskForm.v_title := t;
  TaskForm.v_description := TaskForm.v_description v;
  TaskForm.v_status := TaskForm.v_status v;
  TaskForm.v_priority := TaskForm.v_priority v;
  TaskForm.v_due_date := TaskForm.v_due_date v
|}.

Definition with_due (v : TaskForm.FormValues) (d : option string) : TaskForm.FormValues := {|
  TaskForm.v_title := TaskForm.v_title v;
  TaskForm.v_description := TaskForm.v_description v;
  TaskForm.v_status := TaskForm.v_status v;
  TaskForm.v_priority := TaskForm.v_priority v;
  TaskForm.v_due_date := d
|}.

Definition filled_data : TaskForm.TaskFormData := {|
  TaskForm.data_title := "Write report";
  TaskForm.data_description := Some "";
  TaskForm.data_status := pending;
  TaskForm.data_priority := medium;
  TaskForm.data_due_date := Some "2024-01-15"
|}.

(** A freshly mounted form holding [v]. *)
Definition mounted (v : TaskForm.FormValues) : TaskForm.State := {|
  TaskForm.loading := false;
  TaskForm.form_values := v;
  TaskForm.errors := []
|}.

Definition idle : TaskCard.State := {| TaskCard.updating := false |}.

(** A string of [n] letters. *)
Fixpoint letters (n : nat) : string :=
  match n with
  | O => ""
  | S n' => String "a" (letters n')
  end.

End Sample.

(* ===================================================================== *)
(** ** The rest of the components: what they render, how they mount *)
(* ===================================================================== *)

Module JSString.

(** [s.split(c)[0]] for a one-character separator [c]: the text before the
    first [c], or all of [s] when there is none. *)
Fixpoint before_first (c : ascii) (s : string) : string :=
  match s with
  | EmptyString => EmptyString
  | String a s' =>
      if Ascii.eqb a c then EmptyString else String a (before_first c s')
  end.

(** [s.replace(c, r)] for a one-character string pattern [c]: the first
    [c] is replaced, later ones stay. *)
Fixpoint replace_first (c : ascii) (r : string) (s : string) : string :=
  match s with
  | EmptyString => EmptyString
  | String a s' =>
      if Ascii.eqb a c then r ++ s' else String a (replace_first c r s')
  end.

(** Whether [c] occurs in [s]. *)
Fixpoint occurs (c : ascii) (s : string) : bool :=
  match s with
  | EmptyString => false
  | String a s' => Ascii.eqb a c || occurs c s'
  end.

End JSString.

Module TaskCardView.

(** The due-date row of the card. *)
Record DueRow := {
  due_class : string;
  due_text : string;
  overdue_badge : bool
}.

(** What the card shows. *)
Record View := {
  card_title : string;
  status_class : string;
  status_label : string;
  priority_class : string;
  priority_label : string;
  description_text : option string;
  due_row : option DueRow;
  created_text : string;
  select_value : string;
  select_disabled : bool
}.

(** What the card's menu does: a question put to the user with
    [window.confirm], a call of [onDelete], a call of [onEdit]. *)
Inductive Action :=
| Ask_confirm (question : string)
| Call_onDelete (taskId : string)
| Call_onEdit (t : Task).

Section Component.
(** The host with its [toLocaleDateString], and the [task] prop. *)
Variable H : JS.Host.
Variable toLocaleDateString : JS.Date -> string.
Variable task : Task.

Definition formatDate (dateString : string) : string :=
  toLocaleDateString (JS.Date_of_string H dateString).

(** The JSX returned by the component, for the state [st]. *)
Definition render (st : TaskCard.State) : View :=
  {| card_title := title task;
     status_class := TaskCard.getStatusColor (status task);
     status_label := JSString.replace_first "_" " " (status task);
     priority_class := TaskCard.getPriorityColor (priority task);
     priority_label := priority task;
     description_text :=
       if JS.truthy (description task) then description task else None;
     due_row :=
       match due_date task with
       | Some d =>
           if JS.truthy (Some d) then
             Some {| due_class :=
                       "flex items-center text-sm mb-3 "
                       ++ (if TaskCard.isOverdue H task (due_date task)
                           then "text-red-600" else "text-muted-foreground");
                     due_text := "Due: " ++ formatDate d;
                     overdue_badge := TaskCard.isOverdue H task (due_date task) |}
           else None
       | None => None
       end;
     created_text := "Created: " ++ formatDate (created_at task);
     select_value := status task;
     select_disabled := TaskCard.updating st |}.

(** [handleDelete], with [confirm] the user's answer to [window.confirm]. *)
Definition handleDelete (confirm : string -> bool) : list Action :=
  let question := "Are you sure you want to delete this task?" in
  Ask_confirm question
    :: (if confirm question then [Call_onDelete (id task)] else []).

(** The "Edit" menu item: [() => onEdit(task)]. *)
Definition editClick : list Action := [Call_onEdit task].
End Component.

End TaskCardView.

Module TaskFormView.

(** What the form shows beside its inputs. *)
Record View := {
  heading : string;
  subheading : string;
  title_error : option string;
  status_value : string;
  priority_value : string;
  submit_label : string;
  submit_disabled : bool
}.

Section Component.
Variable H : JS.Host.
Variable task : option Task.

(** The [due_date] entry of [defaultValues]: the due date of a supplied
    task cut down to its date,
    [task?.due_date ? new Date(task.due_date).toISOString().split('T')[0] : ''],
    which throws when the due date is no date. *)
Definition default_due_date {S} : M S string :=
  match task with
  | Some t =>
      match due_date t with
      | Some d =>
          if JS.truthy (Some d)
          then
            iso <- toISOString H (JS.Date_of_string H d) ;;
            ret (JSString.before_first "T" iso)
          else ret ""
      | None => ret ""
      end
  | None => ret ""
  end.

(** The object literal [defaultValues], once its [due_date] entry is known. *)
Definition defaultValues_literal (due : string) : TaskForm.FormValues :=
  {| TaskForm.v_title := JS.or_else (option_map title task) (fun s => s) "";
     TaskForm.v_description :=
       Some (JS.or_else
               (match task with Some t => description t | None => None end)
               (fun s => s) "");
     TaskForm.v_status :=
       JS.or_else (option_map status task) (fun s => s) "pending";
     TaskForm.v_priority :=
       JS.or_else (option_map priority task) (fun s => s) "medium";
     TaskForm.v_due_date := Some due |}.

(** [defaultValues] of [useForm]. *)
Definition defaultValues {S} : M S TaskForm.FormValues :=
  due <- default_due_date ;;
  ret (defaultValues_literal due).

(** The first render: [useState(false)] and [useForm] with the default
    values and no errors. *)
Definition mount : M unit TaskForm.State :=
  v <- defaultValues ;;
  ret {| TaskForm.loading := false;
         TaskForm.form_values := v;
         TaskForm.errors := [] |}.

(** The JSX returned by the component, for the state [st]. *)
Definition render (st : TaskForm.State) : View :=
  {| heading :=
       match task with Some _ => "Edit Task" | None => "Create New Task" end;
     subheading :=
       match task with
       | Some _ => "Update your task details"
       | None => "Add a new task to your list"
       end;
     title_error := Zod.field_error "title" (TaskForm.errors st);
     status_value := TaskForm.v_status (TaskForm.form_values st);
     priority_value := TaskForm.v_priority (TaskForm.form_values st);
     submit_label :=
       if TaskForm.loading st then "Saving..."
       else match task with Some _ => "Update Task" | None => "Create Task" end;
     submit_disabled := TaskForm.loading st |}.
End Component.

End TaskFormView.

Module Index.

Inductive View := Spinner | Landing.

(** The effect [useEffect(() => { if (!loading && user) navigate('/dashboard') })]:
    the routes it navigates to. *)
Definition effect (user : option User) (loading : bool) : list string :=
  if negb loading && (match user with Some _ => true | None => false end)
  then ["/dashboard"] else [].

Definition render (loading : bool) : View :=
  if loading then Spinner else Landing.

(** The three buttons of the landing page: "Get Started", "Sign In" and
    "Start Managing Tasks Today". *)
Inductive Button := Get_started | Sign_in | Start_managing.

Definition click (b : Button) : list string :=
  match b with
  | Get_started => ["/auth"]
  | Sign_in => ["/auth"]
  | Start_managing => ["/auth"]
  end.

End Index.

(* ===================================================================== *)
(** ** A finite check of the calendar *)
(* ===================================================================== *)

Module Calendar.

(** The Gregorian calendar repeats every 146097 days, so what
    [JS.civil_from_days] does is decided by the day [doe] within such a
    period.  [day_ok doe] checks, for one such day, the facts used about
    it: the year within the period is 0..399, the month and the day of the
    month exist, and the year within the period (counted from January) is
    400 exactly for the last 60 days. *)
Definition day_ok (doe : Z) : bool :=
  let yoe := (doe - doe / 1460 + doe / 36524 - doe / 146096) / 365 in
  let doy := doe - (365 * yoe + yoe / 4 - yoe / 100) in
  let mp := (5 * doy + 2) / 153 in
  let d := doy - (153 * mp + 2) / 5 + 1 in
  let m := if mp <? 10 then mp + 3 else mp - 9 in
  let yo := if m <=? 2 then yoe + 1 else yoe in
  (0 <=? yoe) && (yoe <=? 399) && (0 <=? doy) && (0 <=? mp) && (mp <=? 11)
  && (1 <=? d) && (d <=? JS.days_in_month yo m)
  && Bool.eqb (doe <? 146037) (yo <=? 399).

(** [day_ok] on the [n] days from [k] on. *)
Fixpoint days_ok (n : nat) (k : Z) : bool :=
  match n with
  | O => true
  | S n' => day_ok k && days_ok n' (k + 1)
  end.

End Calendar.

Module Clock.

(** The host [H] at another reading [now] of its clock. *)
Definition at_time (H : JS.Host) (now : Z) : JS.Host :=
  {| JS.Date_now := now;
     JS.LocalTZA := JS.LocalTZA H;
     JS.Date_parse := JS.Date_parse H;
     JS.invalid_time := JS.invalid_time H |}.

(** The number of the local day the clock of [H] is in. *)
Definition local_day (H : JS.Host) : Z :=
  (JS.Date_now H + JS.LocalTZA H) / JS.msPerDay.

End Clock.

Module MoreSamples.

(** A task due in the afternoon (UTC) of 2024-01-14. *)
Definition review : Task := {|
  id := "t-2";
  title := "Review budget";
  description := Some "Q1 figures";
  status := "in_progress";
  priority := "medium";
  due_date := Some "2024-01-14T15:30:00.000Z";
  created_at := "2024-01-03T08:00:00.000Z";
  updated_at := "2024-01-03T08:00:00.000Z"
|}.

(** A task whose status has two underscores. *)
Definition on_hold : Task := Sample.with_status Sample.report "on_hold_now".

End MoreSamples.

(* ===================================================================== *)
(** ** TaskCard: display attributes *)
(* ===================================================================== *)

(** The cases of [isOverdue], for any argument. *)
Lemma isOverdue_cases (H : JS.Host) (task : Task) (d : option string) :
  TaskCard.isOverdue H task d = true <->
  exists s t,
    d = Some s /\ s <> "" /\ JS.Date_of_string H s = Some t
    /\ t < JS.setHours0 H (JS.Date_now H) /\ status task <> "completed".
Proof.
  unfold TaskCard.isOverdue, TaskCard.today, JS.truthy, JS.Date_lt.
  split.
  - destruct d as [s|]; [|discriminate].
    destruct (String.eqb_spec s ""); cbn; [discriminate|].
    destruct (JS.Date_of_string H s) as [t|] eqn:D; [|discriminate].
    intros E. apply andb_prop in E. destruct E as [E1 E2].
    exists s, t.
    split; [reflexivity|]. split; [assumption|]. split; [exact D|]. split.
    + now apply Z.ltb_lt.
    + intros Hc. rewrite Hc in E2. discriminate.
  - intros (s & t & -> & Hne & -> & Hlt & Hst).
    destruct (String.eqb_spec s ""); [contradiction|]. cbn.
    apply andb_true_intro. split.
    + now apply Z.ltb_lt.
    + destruct (String.eqb_spec (status task) "completed"); [contradiction|reflexivity].
Qed.

Lemma Date_of_string_empty (H : JS.Host) :
  JS.Date_parse H "" = None -> JS.Date_of_string H "" = None.
Proof. unfold JS.Date_of_string. now intros ->. Qed.

(** C1. On a host where [new Date("")] is an Invalid Date (as in every
    JavaScript engine), [isOverdue] applied to the task's due date is true
    exactly when the due date is present, its time is strictly before the
    start of the current local day, and the status is not ['completed'].
    In particular it is false when the due date is absent, when its time is
    at or after the start of today, and when the status is ['completed']. *)
Theorem isOverdue_spec (H : JS.Host) (task : Task)
    (Hempty : JS.Date_parse H "" = None) :
  (TaskCard.isOverdue H task (due_date task) = true <->
   exists s t,
     due_date task = Some s /\ JS.Date_of_string H s = Some t
     /\ t < JS.setHours0 H (JS.Date_now H) /\ status task <> "completed")
  /\ (due_date task = None -> TaskCard.isOverdue H task (due_date task) = false)
  /\ (forall s t,
        due_date task = Some s -> JS.Date_of_string H s = Some t ->
        JS.setHours0 H (JS.Date_now H) <= t ->
        TaskCard.isOverdue H task (due_date task) = false)
  /\ (status task = "completed" ->
      TaskCard.isOverdue H task (due_date task) = false).
Proof.
  assert (Hiff :
    TaskCard.isOverdue H task (due_date task) = true <->
    exists s t,
      due_date task = Some s /\ JS.Date_of_string H s = Some t
      /\ t < JS.setHours0 H (JS.Date_now H) /\ status task <> "completed").
  { rewrite isOverdue_cases. split.
    - intros (s & t & E & _ & P). now exists s, t.
    - intros (s & t & E & D & P). exists s, t. repeat split; try tauto.
      intros ->. rewrite (Date_of_string_empty H Hempty) in D. discriminate. }
  split; [exact Hiff|].
  repeat split.
  - intros E. apply not_true_is_false. rewrite Hiff.
    intros (s & t & E' & _). congruence.
  - intros s t E D Hle. apply not_true_is_false. rewrite Hiff.
    intros (s' & t' & E' & D' & Hlt & _).
    rewrite E in E'. injection E' as <-. rewrite D in D'. injection D' as <-. lia.
  - intros E. apply not_true_is_false. rewrite Hiff.
    intros (s & t & _ & _ & _ & Hne). contradiction.
Qed.

(** The overdue examples of the specification, on a browser in UTC. *)
Example overdue_yesterday_pending :
  TaskCard.isOverdue JS.browser_utc Sample.report (Some "2024-01-14") = true.
Proof. reflexivity. Qed.

Example overdue_yesterday_completed :
  TaskCard.isOverdue JS.browser_utc (Sample.with_status Sample.report "completed")
    (Some "2024-01-14") = false.
Proof. reflexivity. Qed.

Example overdue_tomorrow :
  TaskCard.isOverdue JS.browser_utc Sample.report (Some "2024-01-16") = false.
Proof. reflexivity. Qed.

Example overdue_absent :
  TaskCard.isOverdue JS.browser_utc Sample.report None = false.
Proof. reflexivity. Qed.

(** The comparison is between instants: a date-only string is read as UTC
    midnight while the start of today is local, so west of Greenwich the
    UTC midnight of today's date already lies before today's start. *)
Example overdue_today_west_of_utc :
  TaskCard.isOverdue JS.browser Sample.report (Some "2024-01-15") = true
  /\ TaskCard.isOverdue JS.browser_utc Sample.report (Some "2024-01-15") = false.
Proof. split; reflexivity. Qed.

Lemma isOverdue_spec_witness :
  TaskCard.isOverdue JS.browser Sample.report (due_date Sample.report) = true.
Proof.
  apply (proj1 (isOverdue_spec JS.browser Sample.report eq_refl)).
  exists "2024-01-14T00:00:00.000Z", 1705190400000.
  split; [reflexivity|]. split; [reflexivity|]. split; [reflexivity|].
  discriminate.
Defined.

(** C9. Each of the three status values is mapped by [getStatusColor] to a
    non-empty style class and each of the three priority values by
    [getPriorityColor]; [getStatusColor] maps every string that is none of
    the status values to the default style (a priority word included), and
    [getPriorityColor] maps every string that is none of the priority
    values to the default style (a status word included).  Being Gallina
    functions on strings, both mappings are total and depend on their
    argument only. *)
Theorem color_mapping :
  (forall st : Status, TaskCard.getStatusColor (Status_value st) <> "")
  /\ (forall pr : Priority, TaskCard.getPriorityColor (Priority_value pr) <> "")
  /\ (forall s : string,
        (forall x : Status, s <> Status_value x) ->
        TaskCard.getStatusColor s
        = "bg-secondary text-secondary-foreground hover:bg-secondary/80")
  /\ (forall p : string,
        (forall x : Priority, p <> Priority_value x) ->
        TaskCard.getPriorityColor p
        = "bg-secondary text-secondary-foreground hover:bg-secondary/80").
Proof.
  split; [|split; [|split]].
  - intros st. destruct st; discriminate.
  - intros pr. destruct pr; discriminate.
  - intros s Hs. unfold TaskCard.getStatusColor.
    destruct (String.eqb_spec s "pending") as [E|_]; [elim (Hs pending E)|].
    destruct (String.eqb_spec s "in_progress") as [E|_]; [elim (Hs in_progress E)|].
    destruct (String.eqb_spec s "completed") as [E|_]; [elim (Hs completed E)|].
    reflexivity.
  - intros p Hp. unfold TaskCard.getPriorityColor.
    destruct (String.eqb_spec p "high") as [E|_]; [elim (Hp high E)|].
    destruct (String.eqb_spec p "medium") as [E|_]; [elim (Hp medium E)|].
    destruct (String.eqb_spec p "low") as [E|_]; [elim (Hp low E)|].
    reflexivity.
Qed.

Lemma color_mapping_witness :
  TaskCard.getStatusColor "high"
  = "bg-secondary text-secondary-foreground hover:bg-secondary/80"
  /\ TaskCard.getPriorityColor "pending"
     = "bg-secondary text-secondary-foreground hover:bg-secondary/80"
  /\ TaskCard.getStatusColor ""
     = "bg-secondary text-secondary-foreground hover:bg-secondary/80"
  /\ TaskCard.getPriorityColor "High"
     = "bg-secondary text-secondary-foreground hover:bg-secondary/80".
Proof.
  destruct color_mapping as (_ & _ & Hstatus & Hpriority).
  split; [|split; [|split]].
  - apply (Hstatus "high"). intros x; destruct x; discriminate.
  - apply (Hpriority "pending"). intros x; destruct x; discriminate.
  - apply (Hstatus ""). intros x; destruct x; discriminate.
  - apply (Hpriority "High"). intros x; destruct x; discriminate.
Defined.

(* ===================================================================== *)
(** ** TaskCard: quick status change *)
(* ===================================================================== *)

(** The run of [handleStatusChange], by the server's answer. *)
Lemma handleStatusChange_run (supabase : Request -> Response) (task : Task)
    (newStatus : Status) (s : TaskCard.State) :
  let req := Update "tasks" [("status", JStr (Status_value newStatus))] (id task) in
  TaskCard.handleStatusChange supabase task newStatus s =
  ({| TaskCard.updating := false |},
   match error (supabase req) with
   | Some e =>
       [Ev_request req;
        Ev_toast {| toast_title := "Error";
                    toast_description := message_or e "Failed to update task status";
                    variant := Some "destructive" |}]
   | None =>
       [Ev_request req;
        Ev_onUpdate (data (supabase req));
        Ev_toast {| toast_title := "Success";
                    toast_description := "Task status updated successfully";
                    variant := None |}]
   end,
   Normal tt).
Proof.
  intros req.
  unfold TaskCard.handleStatusChange, try_catch_finally, bind, await, emit, ret,
    TaskCard.setUpdating, modify, toast, throw.
  fold req. destruct (supabase req) as [d [e|]]; reflexivity.
Qed.

(** C5. A quick status change sends exactly one request, an update of the
    row whose id is the task's, whose payload has [status] as its only
    field, holding the selected value (and it sends no insert); when the
    server answers without an error, the update callback is called once,
    with the record of the answer. *)
Theorem handleStatusChange_status_only (supabase : Request -> Response)
    (task : Task) (newStatus : Status) (s : TaskCard.State) :
  let req := Update "tasks" [("status", JStr (Status_value newStatus))] (id task) in
  let r := TaskCard.handleStatusChange supabase task newStatus s in
  filter is_request (trace_of r) = [Ev_request req]
  /\ (forall table values i,
        In (Ev_request (Update table values i)) (trace_of r) ->
        keys values = ["status"] /\ i = id task)
  /\ (forall table rows, ~ In (Ev_request (Insert table rows)) (trace_of r))
  /\ (error (supabase req) = None ->
      filter is_onUpdate (trace_of r) = [Ev_onUpdate (data (supabase req))]).
Proof.
  intros req r. subst r. rewrite handleStatusChange_run. fold req.
  unfold trace_of. cbn [fst snd].
  assert (Hreq : forall q,
             In (Ev_request q)
                match error (supabase req) with
                | Some e =>
                    [Ev_request req;
                     Ev_toast {| toast_title := "Error";
                                 toast_description :=
                                   message_or e "Failed to update task status";
                                 variant := Some "destructive" |}]
                | None =>
                    [Ev_request req; Ev_onUpdate (data (supabase req));
                     Ev_toast {| toast_title := "Success";
                                 toast_description :=
                                   "Task status updated successfully";
                                 variant := None |}]
                end -> q = req).
  { intros q Hin. destruct (error (supabase req)); cbn in Hin;
      destruct Hin as [E|Hin]; try (injection E as <-; reflexivity);
      repeat (destruct Hin as [E|Hin]; try discriminate); contradiction. }
  split; [destruct (error (supabase req)); reflexivity|].
  split; [|split].
  - intros table values i Hin. apply Hreq in Hin.
    unfold req in Hin. injection Hin as _ -> ->. split; reflexivity.
  - intros table rows Hin. apply Hreq in Hin. discriminate.
  - intros ->. reflexivity.
Qed.

Lemma handleStatusChange_status_only_witness :
  filter is_request
    (trace_of (TaskCard.handleStatusChange Sample.server_ok Sample.report
                 completed Sample.idle))
  = [Ev_request (Update "tasks" [("status", JStr "completed")] "t-1")]
  /\ filter is_onUpdate
       (trace_of (TaskCard.handleStatusChange Sample.server_ok Sample.report
                    completed Sample.idle))
     = [Ev_onUpdate (Some Sample.report)].
Proof.
  destruct (handleStatusChange_status_only Sample.server_ok Sample.report
              completed Sample.idle) as (Hreq & _ & _ & Hupd).
  split; [exact Hreq | exact (Hupd eq_refl)].
Defined.

(** C6. Whatever the server answers, [updating] is false when the handler
    is done, so the selector is enabled again; and when the answer carries
    an error, the update callback is not called and one notification is
    shown: the destructive "Error" toast with the error's message, or with
    "Failed to update task status" when it has none. *)
Theorem handleStatusChange_failure (supabase : Request -> Response)
    (task : Task) (newStatus : Status) (s : TaskCard.State) :
  let req := Update "tasks" [("status", JStr (Status_value newStatus))] (id task) in
  let r := TaskCard.handleStatusChange supabase task newStatus s in
  TaskCard.updating (state_of r) = false
  /\ (forall e, error (supabase req) = Some e ->
      filter is_onUpdate (trace_of r) = []
      /\ filter is_toast (trace_of r)
         = [Ev_toast {| toast_title := "Error";
                        toast_description :=
                          message_or e "Failed to update task status";
                        variant := Some "destructive" |}]).
Proof.
  intros req r. subst r. rewrite handleStatusChange_run. fold req.
  unfold trace_of, state_of. cbn [fst snd].
  split; [reflexivity|].
  intros e ->. split; reflexivity.
Qed.

Lemma handleStatusChange_failure_witness :
  filter is_onUpdate
    (trace_of (TaskCard.handleStatusChange Sample.server_mute Sample.report
                 completed Sample.idle)) = []
  /\ filter is_toast
       (trace_of (TaskCard.handleStatusChange Sample.server_mute Sample.report
                    completed Sample.idle))
     = [Ev_toast {| toast_title := "Error";
                    toast_description := "Failed to update task status";
                    variant := Some "destructive" |}].
Proof.
  exact (proj2 (handleStatusChange_failure Sample.server_mute Sample.report
                  completed Sample.idle) {| message := None |} eq_refl).
Defined.

(* ===================================================================== *)
(** ** TaskForm: submission *)
(* ===================================================================== *)

Section FormRuns.
Variable H : JS.Host.
Variable supabase : Request -> Response.

Lemma due_date_entry_run (fd : TaskForm.TaskFormData) (s : TaskForm.State) :
  TaskForm.due_date_entry H fd s =
  (s, [], match TaskForm.due_date_outcome H fd with
          | inl e => Throw e
          | inr j => Normal j
          end).
Proof.
  unfold TaskForm.due_date_entry, TaskForm.due_date_outcome.
  destruct (TaskForm.data_due_date fd) as [d|]; [|reflexivity].
  destruct (JS.truthy (Some d)); [|reflexivity].
  unfold toISOString, bind, ret, throw.
  destruct (JS.Date_of_string H d); reflexivity.
Qed.

Lemma handleSubmit_run (u : User) (task : option Task)
    (fd : TaskForm.TaskFormData) (s : TaskForm.State) :
  TaskForm.handleSubmit H supabase (Some u) task fd s =
  (TaskForm.settled s, TaskForm.submit_events H supabase u task fd, Normal tt).
Proof.
  unfold TaskForm.handleSubmit, try_catch_finally, TaskForm.submit_events.
  unfold bind at 1. cbn [TaskForm.setLoading modify].
  unfold bind at 1. rewrite due_date_entry_run.
  destruct (TaskForm.due_date_outcome H fd) as [e|due]; [reflexivity|].
  destruct task as [t|]; cbn [TaskForm.save_request];
    unfold bind, await, emit, ret, throw, toast;
    match goal with
    | |- context [supabase ?r] => destruct (supabase r) as [d [e|]]
    end; reflexivity.
Qed.

Lemma handleSubmit_signed_out (task : option Task)
    (fd : TaskForm.TaskFormData) (s : TaskForm.State) :
  TaskForm.handleSubmit H supabase None task fd s = (s, [], Normal tt).
Proof. reflexivity. Qed.

(** A submission whose values pass the schema is the handler run on the
    validated data, with the field errors cleared. *)
Lemma onSubmit_valid (user : option User) (task : option Task)
    (s : TaskForm.State) (fd : TaskForm.TaskFormData) :
  TaskForm.taskSchema (TaskForm.form_values s) = inr fd ->
  TaskForm.onSubmit H supabase user task s =
  TaskForm.handleSubmit H supabase user task fd
    {| TaskForm.loading := TaskForm.loading s;
       TaskForm.form_values := TaskForm.form_values s;
       TaskForm.errors := [] |}.
Proof.
  intros E. unfold TaskForm.onSubmit. rewrite E.
  unfold bind, TaskForm.setErrors, modify.
  destruct (TaskForm.handleSubmit H supabase user task fd _) as [[s2 ev2] c].
  reflexivity.
Qed.

(** A submission whose values fail the schema only records the issues. *)
Lemma onSubmit_invalid (user : option User) (task : option Task)
    (s : TaskForm.State) (issues : list Zod.Issue) :
  TaskForm.taskSchema (TaskForm.form_values s) = inl issues ->
  TaskForm.onSubmit H supabase user task s =
  ({| TaskForm.loading := TaskForm.loading s;
      TaskForm.form_values := TaskForm.form_values s;
      TaskForm.errors := issues |}, [], Normal tt).
Proof.
  intros E. unfold TaskForm.onSubmit. rewrite E. reflexivity.
Qed.

(** What a valid submission hands to the handler. *)
Lemma taskSchema_inr (v : TaskForm.FormValues) (fd : TaskForm.TaskFormData) :
  TaskForm.taskSchema v = inr fd ->
  TaskForm.title_check (TaskForm.v_title v) = []
  /\ TaskForm.data_title fd = TaskForm.v_title v
  /\ TaskForm.data_description fd = TaskForm.v_description v
  /\ TaskForm.data_due_date fd = TaskForm.v_due_date v.
Proof.
  unfold TaskForm.taskSchema.
  destruct (TaskForm.title_check (TaskForm.v_title v));
    destruct (TaskForm.status_check (TaskForm.v_status v));
    destruct (TaskForm.priority_check (TaskForm.v_priority v));
    intros E; try discriminate.
  injection E as <-. repeat split.
Qed.

(** A request among the events of a submission is the save request for
    the payload built from the validated data. *)
Lemma request_in_submit_events (u : User) (task : option Task)
    (fd : TaskForm.TaskFormData) (req : Request) :
  In (Ev_request req) (TaskForm.submit_events H supabase u task fd) ->
  exists due,
    TaskForm.due_date_outcome H fd = inr due
    /\ req = TaskForm.save_request task (TaskForm.taskData_literal u fd due).
Proof.
  unfold TaskForm.submit_events.
  destruct (TaskForm.due_date_outcome H fd) as [e|due].
  - intros [E|[]]. discriminate.
  - intros Hin. exists due. split; [reflexivity|].
    destruct (error (supabase _)); cbn in Hin;
      destruct Hin as [E|Hin]; try (injection E as <-; reflexivity);
      repeat (destruct Hin as [E|Hin]; try discriminate); contradiction.
Qed.

(** Every request of a submission comes from a signed-in user and values
    that passed the schema, and then the whole run is known. *)
Lemma onSubmit_request (user : option User) (task : option Task)
    (s : TaskForm.State) (req : Request) :
  In (Ev_request req) (trace_of (TaskForm.onSubmit H supabase user task s)) ->
  exists u fd due,
    user = Some u
    /\ TaskForm.taskSchema (TaskForm.form_values s) = inr fd
    /\ TaskForm.due_date_outcome H fd = inr due
    /\ req = TaskForm.save_request task (TaskForm.taskData_literal u fd due)
    /\ TaskForm.onSubmit H supabase user task s =
       ({| TaskForm.loading := false;
           TaskForm.form_values := TaskForm.form_values s;
           TaskForm.errors := [] |},
        TaskForm.submit_events H supabase u task fd, Normal tt).
Proof.
  destruct (TaskForm.taskSchema (TaskForm.form_values s)) as [issues|fd] eqn:E.
  - rewrite (onSubmit_invalid user task s issues E). intros [].
  - rewrite (onSubmit_valid user task s fd E).
    destruct user as [u|]; [|intros []].
    rewrite handleSubmit_run. unfold trace_of; cbn [fst snd]. intros Hin.
    destruct (request_in_submit_events u task fd req Hin) as (due & D & R).
    exists u, fd, due. repeat split; assumption.
Qed.

(** A valid submission by a signed-in user whose due-date entry could be
    built does send its request, and only that one. *)
Lemma onSubmit_sends (u : User) (task : option Task) (s : TaskForm.State)
    (fd : TaskForm.TaskFormData) (due : Json) :
  TaskForm.taskSchema (TaskForm.form_values s) = inr fd ->
  TaskForm.due_date_outcome H fd = inr due ->
  filter is_request (trace_of (TaskForm.onSubmit H supabase (Some u) task s))
  = [Ev_request (TaskForm.save_request task (TaskForm.taskData_literal u fd due))].
Proof.
  intros V D. rewrite (onSubmit_valid (Some u) task s fd V), handleSubmit_run.
  unfold trace_of, TaskForm.submit_events. cbn [fst snd]. rewrite D. cbv zeta.
  destruct (error (supabase _)); reflexivity.
Qed.

(** A due date that parses to no valid date stops the submission before
    any request: only the error toast is shown. *)
Lemma onSubmit_invalid_date (u : User) (task : option Task) (s : TaskForm.State)
    (fd : TaskForm.TaskFormData) (e : JsError) :
  TaskForm.taskSchema (TaskForm.form_values s) = inr fd ->
  TaskForm.due_date_outcome H fd = inl e ->
  trace_of (TaskForm.onSubmit H supabase (Some u) task s)
  = [Ev_toast (TaskForm.error_toast e)].
Proof.
  intros V D. rewrite (onSubmit_valid (Some u) task s fd V), handleSubmit_run.
  unfold trace_of, TaskForm.submit_events. cbn [fst snd]. rewrite D. reflexivity.
Qed.
End FormRuns.

(** The text of [toISOString] has 24 characters, or 27 with an expanded
    year; it is never a plain date. *)
Lemma iso_of_time_length (t : Z) :
  String.length (JS.iso_of_time t) = 24%nat
  \/ String.length (JS.iso_of_time t) = 27%nat.
Proof.
  unfold JS.iso_of_time.
  destruct (JS.civil_from_days (t / JS.msPerDay)) as [[y m] d].
  unfold JS.iso_year.
  destruct ((0 <=? y) && (y <=? 9999)).
  - left. reflexivity.
  - right. destruct (y <? 0); reflexivity.
Qed.

Lemma iso_of_time_not_plain (t : Z) :
  TaskForm.plain_date_string (JS.iso_of_time t) = false.
Proof.
  unfold TaskForm.plain_date_string.
  destruct (iso_of_time_length t) as [E|E]; rewrite E; reflexivity.
Qed.

(** [error.message || fallback]: the message when there is a non-empty
    one, the fallback otherwise. *)
Lemma message_or_spec (e : JsError) (fallback : string) :
  message_or e fallback =
  match message e with
  | Some m => if (m =? "")%string then fallback else m
  | None => fallback
  end.
Proof. reflexivity. Qed.

(** C2, as stated, fails: the form value [2024-01-15] is sent as
    [2024-01-15T00:00:00.000Z]. *)
Lemma sends_plain_date_counterexample :
  ~ TaskForm.sends_plain_date JS.browser Sample.server_ok (Some Sample.alice) None
      (Sample.mounted Sample.filled).
Proof.
  intros Hc.
  assert (Hin : In (Ev_request
                      (TaskForm.save_request None
                         [("title", JStr "Write report"); ("description", JNull);
                          ("status", JStr "pending"); ("priority", JStr "medium");
                          ("due_date", JStr "2024-01-15T00:00:00.000Z");
                          ("user_id", JStr "u-42")]))
                   (trace_of (TaskForm.onSubmit JS.browser Sample.server_ok
                                (Some Sample.alice) None
                                (Sample.mounted Sample.filled)))).
  { vm_compute. left. reflexivity. }
  destruct (Hc eq_refl _ _ Hin eq_refl) as (d & E & P).
  vm_compute in E. injection E as <-. vm_compute in P. discriminate P.
Qed.

Example unparsable_due_date_sends_nothing :
  trace_of (TaskForm.onSubmit JS.browser Sample.server_ok (Some Sample.alice) None
              (Sample.mounted (Sample.with_due Sample.filled (Some "next week"))))
  = [Ev_toast {| toast_title := "Error";
                 toast_description := "Invalid time value";
                 variant := Some "destructive" |}].
Proof. vm_compute. reflexivity. Qed.

(** C2, amended. When the due-date field of a submission is filled in,
    every request sent carries as [due_date] the [toISOString] text of the
    date the field parses to: a UTC timestamp [YYYY-MM-DDTHH:mm:ss.sssZ],
    never a plain date string.  (A field that parses to no valid date
    sends no request.) *)
Theorem due_date_sent_as_timestamp (H : JS.Host) (supabase : Request -> Response)
    (user : option User) (task : option Task) (s : TaskForm.State)
    (d : string) (req : Request)
    (Hdue : TaskForm.v_due_date (TaskForm.form_values s) = Some d)
    (Hfilled : d <> "")
    (Hsent : In (Ev_request req)
               (trace_of (TaskForm.onSubmit H supabase user task s))) :
  exists t p,
    JS.Date_of_string H d = Some t
    /\ req = TaskForm.save_request task p
    /\ get "due_date" p = Some (JStr (JS.iso_of_time t))
    /\ TaskForm.plain_date_string (JS.iso_of_time t) = false.
Proof.
  destruct (onSubmit_request H supabase user task s req Hsent)
    as (u & fd & due & _ & V & D & R & _).
  destruct (taskSchema_inr _ _ V) as (_ & _ & _ & Edue).
  unfold TaskForm.due_date_outcome in D. rewrite Edue, Hdue in D.
  unfold JS.truthy in D.
  destruct (String.eqb_spec d ""); [contradiction|]. cbn [negb] in D.
  destruct (JS.Date_of_string H d) as [t|]; [|discriminate].
  injection D as <-.
  exists t, (TaskForm.taskData_literal u fd (JStr (JS.iso_of_time t))).
  split; [reflexivity|]. split; [exact R|]. split; [reflexivity|].
  apply iso_of_time_not_plain.
Qed.

Lemma due_date_sent_as_timestamp_witness :
  exists t p,
    JS.Date_of_string JS.browser "2024-01-15" = Some t
    /\ Insert "tasks"
         [[("title", JStr "Write report"); ("description", JNull);
           ("status", JStr "pending"); ("priority", JStr "medium");
           ("due_date", JStr "2024-01-15T00:00:00.000Z");
           ("user_id", JStr "u-42")]]
       = TaskForm.save_request None p
    /\ get "due_date" p = Some (JStr (JS.iso_of_time t))
    /\ TaskForm.plain_date_string (JS.iso_of_time t) = false.
Proof.
  apply (due_date_sent_as_timestamp JS.browser Sample.server_ok
           (Some Sample.alice) None (Sample.mounted Sample.filled) "2024-01-15").
  - reflexivity.
  - discriminate.
  - vm_compute. left. reflexivity.
Defined.

(** C3. Every request a submission sends comes from a signed-in user and
    from values that passed the schema; in its payload an empty-string
    description is sent as null, an empty-string due date is sent as null,
    and when no task was supplied the request is an insert whose row
    carries the user's id as [user_id]. *)
Theorem submission_normalizes (H : JS.Host) (supabase : Request -> Response)
    (user : option User) (task : option Task) (s : TaskForm.State)
    (req : Request)
    (Hsent : In (Ev_request req)
               (trace_of (TaskForm.onSubmit H supabase user task s))) :
  exists u fd p,
    user = Some u
    /\ TaskForm.taskSchema (TaskForm.form_values s) = inr fd
    /\ req = TaskForm.save_request task p
    /\ (TaskForm.v_description (TaskForm.form_values s) = Some "" ->
        get "description" p = Some JNull)
    /\ (TaskForm.v_due_date (TaskForm.form_values s) = Some "" ->
        get "due_date" p = Some JNull)
    /\ (task = None ->
        req = Insert "tasks" [p] /\ get "user_id" p = Some (JStr (user_id u))).
Proof.
  destruct (onSubmit_request H supabase user task s req Hsent)
    as (u & fd & due & U & V & D & R & _).
  destruct (taskSchema_inr _ _ V) as (_ & _ & Edesc & Edue).
  exists u, fd, (TaskForm.taskData_literal u fd due).
  split; [exact U|]. split; [exact V|]. split; [exact R|].
  split; [|split].
  - intros E. unfold TaskForm.taskData_literal, get.
    rewrite Edesc, E. reflexivity.
  - intros E. unfold TaskForm.due_date_outcome in D.
    rewrite Edue, E in D. cbn [JS.truthy String.eqb negb] in D.
    injection D as <-. reflexivity.
  - intros ->. split; [exact R | reflexivity].
Qed.

Lemma submission_normalizes_witness :
  exists u fd p,
    Some Sample.alice = Some u
    /\ TaskForm.taskSchema
         (TaskForm.form_values
            (Sample.mounted (Sample.with_due Sample.filled (Some "")))) = inr fd
    /\ Insert "tasks"
         [[("title", JStr "Write report"); ("description", JNull);
           ("status", JStr "pending"); ("priority", JStr "medium");
           ("due_date", JNull); ("user_id", JStr "u-42")]]
       = TaskForm.save_request None p
    /\ (TaskForm.v_description
          (TaskForm.form_values
             (Sample.mounted (Sample.with_due Sample.filled (Some "")))) = Some "" ->
        get "description" p = Some JNull)
    /\ (TaskForm.v_due_date
          (TaskForm.form_values
             (Sample.mounted (Sample.with_due Sample.filled (Some "")))) = Some "" ->
        get "due_date" p = Some JNull)
    /\ (@None Task = None ->
        Insert "tasks"
          [[("title", JStr "Write report"); ("description", JNull);
            ("status", JStr "pending"); ("priority", JStr "medium");
            ("due_date", JNull); ("user_id", JStr "u-42")]]
        = Insert "tasks" [p]
        /\ get "user_id" p = Some (JStr (user_id u))).
Proof.
  apply (submission_normalizes JS.browser Sample.server_ok (Some Sample.alice)
           None (Sample.mounted (Sample.with_due Sample.filled (Some "")))).
  vm_compute. left. reflexivity.
Defined.

(** The schema rejects values whose title check raises an issue, and that
    issue comes first. *)
Lemma taskSchema_title_issue (v : TaskForm.FormValues) (i : Zod.Issue)
    (rest : list Zod.Issue) :
  TaskForm.title_check (TaskForm.v_title v) = i :: rest ->
  exists more, TaskForm.taskSchema v = inl (i :: more).
Proof.
  intros E. unfold TaskForm.taskSchema. rewrite E.
  destruct (TaskForm.status_check (TaskForm.v_status v));
    destruct (TaskForm.priority_check (TaskForm.v_priority v));
    eexists; reflexivity.
Qed.

(** C4. A submission with an empty title does nothing outside the form (in
    particular sends no request) and reports "Title is required" on the
    title field; one whose title has 101 characters likewise does nothing
    and reports "Title must be less than 100 characters"; and a title of 1
    to 100 characters raises no issue in the title check. *)
Theorem title_validation (H : JS.Host) (supabase : Request -> Response)
    (user : option User) (task : option Task) (s : TaskForm.State) :
  let r := TaskForm.onSubmit H supabase user task s in
  let t := TaskForm.v_title (TaskForm.form_values s) in
  (t = "" ->
   trace_of r = []
   /\ Zod.field_error "title" (TaskForm.errors (state_of r))
      = Some "Title is required")
  /\ (String.length t = 101%nat ->
      trace_of r = []
      /\ Zod.field_error "title" (TaskForm.errors (state_of r))
         = Some "Title must be less than 100 characters")
  /\ ((1 <= String.length t <= 100)%nat -> TaskForm.title_check t = []).
Proof.
  intros r t. subst r t. split; [|split].
  - intros E.
    destruct (taskSchema_title_issue (TaskForm.form_values s)
                {| Zod.path := "title"; Zod.issue_message := "Title is required" |} [])
      as [more V].
    { rewrite E. reflexivity. }
    rewrite (onSubmit_invalid H supabase user task s _ V).
    split; reflexivity.
  - intros E.
    destruct (taskSchema_title_issue (TaskForm.form_values s)
                {| Zod.path := "title";
                   Zod.issue_message := "Title must be less than 100 characters" |} [])
      as [more V].
    { unfold TaskForm.title_check, Zod.string_min_max. rewrite E. reflexivity. }
    rewrite (onSubmit_invalid H supabase user task s _ V).
    split; reflexivity.
  - intros [Hlo Hhi]. unfold TaskForm.title_check, Zod.string_min_max.
    destruct (Nat.ltb_spec (String.length (TaskForm.v_title (TaskForm.form_values s))) 1);
      [lia|].
    destruct (Nat.ltb_spec 100 (String.length (TaskForm.v_title (TaskForm.form_values s))));
      [lia|].
    reflexivity.
Qed.

Lemma title_validation_witness :
  (trace_of (TaskForm.onSubmit JS.browser Sample.server_ok (Some Sample.alice) None
               (Sample.mounted (Sample.with_title Sample.filled ""))) = []
   /\ Zod.field_error "title"
        (TaskForm.errors
           (state_of (TaskForm.onSubmit JS.browser Sample.server_ok
                        (Some Sample.alice) None
                        (Sample.mounted (Sample.with_title Sample.filled "")))))
      = Some "Title is required")
  /\ (trace_of (TaskForm.onSubmit JS.browser Sample.server_ok (Some Sample.alice) None
                  (Sample.mounted
                     (Sample.with_title Sample.filled (Sample.letters 101)))) = []
      /\ Zod.field_error "title"
           (TaskForm.errors
              (state_of (TaskForm.onSubmit JS.browser Sample.server_ok
                           (Some Sample.alice) None
                           (Sample.mounted
                              (Sample.with_title Sample.filled (Sample.letters 101))))))
         = Some "Title must be less than 100 characters")
  /\ TaskForm.title_check (Sample.letters 100) = [].
Proof.
  split; [|split].
  - apply (proj1 (title_validation JS.browser Sample.server_ok (Some Sample.alice)
                    None (Sample.mounted (Sample.with_title Sample.filled "")))).
    reflexivity.
  - apply (proj1 (proj2 (title_validation JS.browser Sample.server_ok
                           (Some Sample.alice) None
                           (Sample.mounted
                              (Sample.with_title Sample.filled (Sample.letters 101)))))).
    reflexivity.
  - apply (proj2 (proj2 (title_validation JS.browser Sample.server_ok
                           (Some Sample.alice) None
                           (Sample.mounted
                              (Sample.with_title Sample.filled (Sample.letters 100)))))).
    cbn. lia.
Defined.

(** C7. When a submission for a supplied task sends its request and the
    server answers with an error, the save callback is not called, one
    notification is shown (the destructive "Error" toast with the error's
    message, or with "Failed to save task" when it has none), the values
    in the form's fields are what they were, and [loading] is false, so
    the submit button is enabled again. *)
Theorem update_failure (H : JS.Host) (supabase : Request -> Response)
    (user : option User) (t : Task) (s : TaskForm.State)
    (req : Request) (e : JsError)
    (Hsent : In (Ev_request req)
               (trace_of (TaskForm.onSubmit H supabase user (Some t) s)))
    (Hfail : error (supabase req) = Some e) :
  let r := TaskForm.onSubmit H supabase user (Some t) s in
  filter is_onSave (trace_of r) = []
  /\ filter is_toast (trace_of r)
     = [Ev_toast {| toast_title := "Error";
                    toast_description := message_or e "Failed to save task";
                    variant := Some "destructive" |}]
  /\ TaskForm.form_values (state_of r) = TaskForm.form_values s
  /\ TaskForm.loading (state_of r) = false.
Proof.
  intros r. subst r.
  destruct (onSubmit_request H supabase user (Some t) s req Hsent)
    as (u & fd & due & _ & _ & D & R & Run).
  rewrite Run. unfold trace_of, state_of. cbn [fst snd].
  unfold TaskForm.submit_events. rewrite D. cbv zeta. rewrite <- R, Hfail.
  repeat split.
Qed.

Lemma update_failure_witness :
  filter is_onSave
    (trace_of (TaskForm.onSubmit JS.browser Sample.server_down (Some Sample.alice)
                 (Some Sample.report) (Sample.mounted Sample.filled))) = []
  /\ filter is_toast
       (trace_of (TaskForm.onSubmit JS.browser Sample.server_down (Some Sample.alice)
                    (Some Sample.report) (Sample.mounted Sample.filled)))
     = [Ev_toast {| toast_title := "Error";
                    toast_description := "Failed to fetch";
                    variant := Some "destructive" |}]
  /\ TaskForm.form_values
       (state_of (TaskForm.onSubmit JS.browser Sample.server_down (Some Sample.alice)
                    (Some Sample.report) (Sample.mounted Sample.filled)))
     = Sample.filled
  /\ TaskForm.loading
       (state_of (TaskForm.onSubmit JS.browser Sample.server_down (Some Sample.alice)
                    (Some Sample.report) (Sample.mounted Sample.filled)))
     = false.
Proof.
  apply (update_failure JS.browser Sample.server_down (Some Sample.alice)
           Sample.report (Sample.mounted Sample.filled)
           (Update "tasks"
              [("title", JStr "Write report"); ("description", JNull);
               ("status", JStr "pending"); ("priority", JStr "medium");
               ("due_date", JStr "2024-01-15T00:00:00.000Z");
               ("user_id", JStr "u-42")] "t-1")
           {| message := Some "Failed to fetch" |}).
  - vm_compute. left. reflexivity.
  - reflexivity.
Defined.

(** C8. When a submission sends its request and the server answers without
    an error, what happens next is exactly: the save callback is called
    with the record of the answer, and the "Success" toast is shown, which
    reads "Task updated successfully" when a task was supplied to the form
    and "Task created successfully" when none was. *)
Theorem submit_success (H : JS.Host) (supabase : Request -> Response)
    (user : option User) (task : option Task) (s : TaskForm.State)
    (req : Request)
    (Hsent : In (Ev_request req)
               (trace_of (TaskForm.onSubmit H supabase user task s)))
    (Hok : error (supabase req) = None) :
  trace_of (TaskForm.onSubmit H supabase user task s)
  = [Ev_request req;
     Ev_onSave (data (supabase req));
     Ev_toast {| toast_title := "Success";
                 toast_description :=
                   match task with
                   | Some _ => "Task updated successfully"
                   | None => "Task created successfully"
                   end;
                 variant := None |}].
Proof.
  destruct (onSubmit_request H supabase user task s req Hsent)
    as (u & fd & due & _ & _ & D & R & Run).
  rewrite Run. unfold trace_of. cbn [fst snd].
  unfold TaskForm.submit_events. rewrite D. cbv zeta. rewrite <- R, Hok.
  reflexivity.
Qed.

Lemma submit_success_witness :
  trace_of (TaskForm.onSubmit JS.browser Sample.server_ok (Some Sample.alice) None
              (Sample.mounted Sample.filled))
  = [Ev_request
       (Insert "tasks"
          [[("title", JStr "Write report"); ("description", JNull);
            ("status", JStr "pending"); ("priority", JStr "medium");
            ("due_date", JStr "2024-01-15T00:00:00.000Z");
            ("user_id", JStr "u-42")]]);
     Ev_onSave (Some Sample.report);
     Ev_toast {| toast_title := "Success";
                 toast_description := "Task created successfully";
                 variant := None |}].
Proof.
  apply (submit_success JS.browser Sample.server_ok (Some Sample.alice) None
           (Sample.mounted Sample.filled)
           (Insert "tasks"
              [[("title", JStr "Write report"); ("description", JNull);
                ("status", JStr "pending"); ("priority", JStr "medium");
                ("due_date", JStr "2024-01-15T00:00:00.000Z");
                ("user_id", JStr "u-42")]])).
  - vm_compute. left. reflexivity.
  - reflexivity.
Defined.

(** C10. With no signed-in user the submit handler returns at once: it
    produces no event (no request, no save callback, no notification) and
    leaves the form state, [loading] included, as it was. *)
Theorem handleSubmit_no_user (H : JS.Host) (supabase : Request -> Response)
    (task : option Task) (fd : TaskForm.TaskFormData) (s : TaskForm.State) :
  let r := TaskForm.handleSubmit H supabase None task fd s in
  trace_of r = []
  /\ state_of r = s
  /\ TaskForm.loading (state_of r) = TaskForm.loading s
  /\ completion_of r = Normal tt.
Proof.
  intros r. subst r. rewrite handleSubmit_signed_out. repeat split.
Qed.

(* ===================================================================== *)
(** ** The schema *)
(* ===================================================================== *)

Lemma title_check_nil (t : string) :
  TaskForm.title_check t = [] <-> (1 <= String.length t <= 100)%nat.
Proof.
  unfold TaskForm.title_check, Zod.string_min_max.
  destruct (Nat.ltb_spec (String.length t) 1);
    destruct (Nat.ltb_spec 100 (String.length t)); cbn;
    split; intros E; try discriminate; try reflexivity; lia.
Qed.

Lemma status_check_inr (s : string) (st : Status) :
  TaskForm.status_check s = inr st <-> s = Status_value st.
Proof.
  unfold TaskForm.status_check, Zod.enum. cbn [find fst snd].
  destruct (String.eqb_spec "pending" s) as [<-|N1].
  { split; [intros E; injection E as <-; reflexivity|].
    destruct st; intros E; try discriminate; reflexivity. }
  destruct (String.eqb_spec "in_progress" s) as [<-|N2].
  { split; [intros E; injection E as <-; reflexivity|].
    destruct st; intros E; try discriminate; reflexivity. }
  destruct (String.eqb_spec "completed" s) as [<-|N3].
  { split; [intros E; injection E as <-; reflexivity|].
    destruct st; intros E; try discriminate; reflexivity. }
  split; [discriminate|].
  intros ->. destruct st; cbn in *; congruence.
Qed.

Lemma priority_check_inr (s : string) (pr : Priority) :
  TaskForm.priority_check s = inr pr <-> s = Priority_value pr.
Proof.
  unfold TaskForm.priority_check, Zod.enum. cbn [find fst snd].
  destruct (String.eqb_spec "low" s) as [<-|N1].
  { split; [intros E; injection E as <-; reflexivity|].
    destruct pr; intros E; try discriminate; reflexivity. }
  destruct (String.eqb_spec "medium" s) as [<-|N2].
  { split; [intros E; injection E as <-; reflexivity|].
    destruct pr; intros E; try discriminate; reflexivity. }
  destruct (String.eqb_spec "high" s) as [<-|N3].
  { split; [intros E; injection E as <-; reflexivity|].
    destruct pr; intros E; try discriminate; reflexivity. }
  split; [discriminate|].
  intros ->. destruct pr; cbn in *; congruence.
Qed.

(** The schema yields data exactly when its three checks pass. *)
Lemma taskSchema_inr_iff (v : TaskForm.FormValues) (fd : TaskForm.TaskFormData) :
  TaskForm.taskSchema v = inr fd <->
  TaskForm.title_check (TaskForm.v_title v) = []
  /\ TaskForm.status_check (TaskForm.v_status v) = inr (TaskForm.data_status fd)
  /\ TaskForm.priority_check (TaskForm.v_priority v) = inr (TaskForm.data_priority fd)
  /\ TaskForm.data_title fd = TaskForm.v_title v
  /\ TaskForm.data_description fd = TaskForm.v_description v
  /\ TaskForm.data_due_date fd = TaskForm.v_due_date v.
Proof.
  unfold TaskForm.taskSchema. split.
  - destruct (TaskForm.title_check (TaskForm.v_title v));
      destruct (TaskForm.status_check (TaskForm.v_status v));
      destruct (TaskForm.priority_check (TaskForm.v_priority v));
      intros E; try discriminate.
    injection E as <-. repeat split.
  - intros (-> & -> & -> & E1 & E2 & E3). destruct fd; cbn in *. congruence.
Qed.

(** The data the schema yields repeat the values it was given. *)
Lemma taskSchema_echo (v : TaskForm.FormValues) (fd : TaskForm.TaskFormData) :
  TaskForm.taskSchema v = inr fd ->
  TaskForm.data_title fd = TaskForm.v_title v
  /\ TaskForm.data_description fd = TaskForm.v_description v
  /\ Status_value (TaskForm.data_status fd) = TaskForm.v_status v
  /\ Priority_value (TaskForm.data_priority fd) = TaskForm.v_priority v
  /\ TaskForm.data_due_date fd = TaskForm.v_due_date v.
Proof.
  intros E. apply taskSchema_inr_iff in E.
  destruct E as (_ & S & P & E1 & E2 & E3).
  apply status_check_inr in S. apply priority_check_inr in P.
  repeat split; congruence.
Qed.

(** Values that pass the three checks are accepted, and conversely. *)
Lemma taskSchema_checks (v : TaskForm.FormValues) :
  (exists fd, TaskForm.taskSchema v = inr fd) <->
  (1 <= String.length (TaskForm.v_title v) <= 100)%nat
  /\ (exists st, TaskForm.v_status v = Status_value st)
  /\ (exists pr, TaskForm.v_priority v = Priority_value pr).
Proof.
  split.
  - intros [fd E]. apply taskSchema_inr_iff in E.
    destruct E as (T & S & P & _).
    split; [now apply title_check_nil|]. split.
    + exists (TaskForm.data_status fd). now apply status_check_inr.
    + exists (TaskForm.data_priority fd). now apply priority_check_inr.
  - intros (T & [st S] & [pr P]).
    exists {| TaskForm.data_title := TaskForm.v_title v;
              TaskForm.data_description := TaskForm.v_description v;
              TaskForm.data_status := st;
              TaskForm.data_priority := pr;
              TaskForm.data_due_date := TaskForm.v_due_date v |}.
    apply taskSchema_inr_iff. cbn.
    split; [now apply title_check_nil|].
    split; [now apply status_check_inr|].
    split; [now apply priority_check_inr|]. repeat split.
Qed.

(** X1. The schema accepts the values of a form exactly when the title has
    1 to 100 characters, the status is one of the three status values and
    the priority one of the three priority values; description and due
    date are never looked at.  The accepted data repeat the values. *)
Theorem taskSchema_accepts_iff (v : TaskForm.FormValues) :
  ((exists fd, TaskForm.taskSchema v = inr fd) <->
   (1 <= String.length (TaskForm.v_title v) <= 100)%nat
   /\ (exists st, TaskForm.v_status v = Status_value st)
   /\ (exists pr, TaskForm.v_priority v = Priority_value pr))
  /\ (forall fd, TaskForm.taskSchema v = inr fd ->
      TaskForm.data_title fd = TaskForm.v_title v
      /\ TaskForm.data_description fd = TaskForm.v_description v
      /\ Status_value (TaskForm.data_status fd) = TaskForm.v_status v
      /\ Priority_value (TaskForm.data_priority fd) = TaskForm.v_priority v
      /\ TaskForm.data_due_date fd = TaskForm.v_due_date v).
Proof.
  split; [split|].
  - intros [fd E]. apply taskSchema_inr_iff in E.
    destruct E as (T & S & P & _).
    split; [now apply title_check_nil|]. split.
    + exists (TaskForm.data_status fd). now apply status_check_inr.
    + exists (TaskForm.data_priority fd). now apply priority_check_inr.
  - intros (T & [st S] & [pr P]).
    exists {| TaskForm.data_title := TaskForm.v_title v;
              TaskForm.data_description := TaskForm.v_description v;
              TaskForm.data_status := st;
              TaskForm.data_priority := pr;
              TaskForm.data_due_date := TaskForm.v_due_date v |}.
    apply taskSchema_inr_iff. cbn.
    split; [now apply title_check_nil|].
    split; [now apply status_check_inr|].
    split; [now apply priority_check_inr|]. repeat split.
  - intros fd E. apply taskSchema_inr_iff in E.
    destruct E as (_ & S & P & E1 & E2 & E3).
    apply status_check_inr in S. apply priority_check_inr in P.
    repeat split; congruence.
Qed.

Lemma taskSchema_accepts_iff_witness :
  exists fd, TaskForm.taskSchema (Sample.with_due Sample.filled (Some "next week"))
             = inr fd.
Proof.
  apply (proj1 (taskSchema_accepts_iff
                  (Sample.with_due Sample.filled (Some "next week")))).
  split; [cbn; lia|]. split.
  - exists pending. reflexivity.
  - exists medium. reflexivity.
Defined.

(* ===================================================================== *)
(** ** Every submission *)
(* ===================================================================== *)

(** The run of [onSubmit] in each of its three cases. *)
Lemma onSubmit_run (H : JS.Host) (supabase : Request -> Response)
    (user : option User) (task : option Task) (s : TaskForm.State) :
  TaskForm.onSubmit H supabase user task s =
  match TaskForm.taskSchema (TaskForm.form_values s), user with
  | inl issues, _ =>
      ({| TaskForm.loading := TaskForm.loading s;
          TaskForm.form_values := TaskForm.form_values s;
          TaskForm.errors := issues |}, [], Normal tt)
  | inr _, None =>
      ({| TaskForm.loading := TaskForm.loading s;
          TaskForm.form_values := TaskForm.form_values s;
          TaskForm.errors := [] |}, [], Normal tt)
  | inr fd, Some u =>
      ({| TaskForm.loading := false;
          TaskForm.form_values := TaskForm.form_values s;
          TaskForm.errors := [] |},
       TaskForm.submit_events H supabase u task fd, Normal tt)
  end.
Proof.
  destruct (TaskForm.taskSchema (TaskForm.form_values s)) as [issues|fd] eqn:E.
  - now rewrite (onSubmit_invalid H supabase user task s issues E).
  - rewrite (onSubmit_valid H supabase user task s fd E).
    destruct user as [u|]; [now rewrite handleSubmit_run | reflexivity].
Qed.

(** The four shapes the events of a signed-in submission can take. *)
Lemma submit_events_shape (H : JS.Host) (supabase : Request -> Response)
    (u : User) (task : option Task) (fd : TaskForm.TaskFormData) :
  let tr := TaskForm.submit_events H supabase u task fd in
  (exists e, tr = [Ev_toast (TaskForm.error_toast e)])
  \/ (exists req e,
        error (supabase req) = Some e
        /\ tr = [Ev_request req; Ev_toast (TaskForm.error_toast e)])
  \/ (exists req,
        error (supabase req) = None
        /\ tr = [Ev_request req; Ev_onSave (data (supabase req));
                 Ev_toast (TaskForm.success_toast task)]).
Proof.
  unfold TaskForm.submit_events.
  destruct (TaskForm.due_date_outcome H fd) as [e|due].
  - left. now exists e.
  - cbv zeta.
    destruct (error (supabase _)) as [e|] eqn:E.
    + right. left. eexists. exists e. split; [exact E | reflexivity].
    + right. right. eexists. split; [exact E | reflexivity].
Qed.

(** X2. A submission never lets an exception escape, and what it does is
    one of: nothing; one notification; a request, then a notification; a
    request, then the save callback with the server's record, then a
    notification.  So there is at most one request, the save callback is
    called at most once and only after a request the server answered
    without error, and a notification always comes last. *)
Theorem onSubmit_shape (H : JS.Host) (supabase : Request -> Response)
    (user : option User) (task : option Task) (s : TaskForm.State) :
  let r := TaskForm.onSubmit H supabase user task s in
  completion_of r = Normal tt
  /\ (trace_of r = []
      \/ (exists t, trace_of r = [Ev_toast t])
      \/ (exists req t,
            error (supabase req) <> None
            /\ trace_of r = [Ev_request req; Ev_toast t])
      \/ (exists req t,
            error (supabase req) = None
            /\ trace_of r
               = [Ev_request req; Ev_onSave (data (supabase req)); Ev_toast t])).
Proof.
  intros r. subst r. rewrite onSubmit_run.
  destruct (TaskForm.taskSchema (TaskForm.form_values s)) as [issues|fd];
    [split; [reflexivity | now left]|].
  destruct user as [u|]; [|split; [reflexivity | now left]].
  split; [reflexivity|]. unfold trace_of; cbn [fst snd].
  destruct (submit_events_shape H supabase u task fd)
    as [[e E]|[(req & e & F & E)|(req & F & E)]]; rewrite E.
  - right. left. eexists. reflexivity.
  - right. right. left. exists req. eexists. split; [congruence | reflexivity].
  - right. right. right. exists req. eexists. split; [exact F | reflexivity].
Qed.

(** X3. A submission never changes the values in the form's inputs; the
    field errors it leaves are the issues of the schema on those values
    (none when they pass); and [loading] is false after any submission
    that produced an event, untouched after one that produced none. *)
Theorem onSubmit_frame (H : JS.Host) (supabase : Request -> Response)
    (user : option User) (task : option Task) (s : TaskForm.State) :
  let r := TaskForm.onSubmit H supabase user task s in
  TaskForm.form_values (state_of r) = TaskForm.form_values s
  /\ TaskForm.errors (state_of r)
     = Zod.issues_of (TaskForm.taskSchema (TaskForm.form_values s))
  /\ (trace_of r <> [] -> TaskForm.loading (state_of r) = false)
  /\ (trace_of r = [] -> TaskForm.loading (state_of r) = TaskForm.loading s).
Proof.
  intros r. subst r. rewrite onSubmit_run.
  destruct (TaskForm.taskSchema (TaskForm.form_values s)) as [issues|fd].
  - repeat split. intros N. now elim N.
  - destruct user as [u|].
    + unfold trace_of, state_of; cbn [fst snd TaskForm.form_values
        TaskForm.errors TaskForm.loading Zod.issues_of].
      repeat split.
      destruct (submit_events_shape H supabase u task fd)
        as [[e E]|[(req & e & F & E)|(req & F & E)]]; rewrite E; discriminate.
    + repeat split. intros N. now elim N.
Qed.

Lemma onSubmit_frame_witness :
  TaskForm.loading
    (state_of (TaskForm.onSubmit JS.browser Sample.server_down (Some Sample.alice)
                 None
                 {| TaskForm.loading := true;
                    TaskForm.form_values := Sample.filled;
                    TaskForm.errors := [] |})) = false.
Proof.
  apply (proj1 (proj2 (proj2 (onSubmit_frame JS.browser Sample.server_down
                                (Some Sample.alice) None
                                {| TaskForm.loading := true;
                                   TaskForm.form_values := Sample.filled;
                                   TaskForm.errors := [] |})))).
  vm_compute. discriminate.
Defined.

(** X5. What a submission does depends on the values in the form only, not
    on what an earlier submission left: after any submission, with any
    answer of the server, submitting again does what a first submission
    would do with the second server. *)
Theorem onSubmit_retry (H : JS.Host) (first second : Request -> Response)
    (user : option User) (task : option Task) (s : TaskForm.State) :
  let s1 := state_of (TaskForm.onSubmit H first user task s) in
  trace_of (TaskForm.onSubmit H second user task s1)
  = trace_of (TaskForm.onSubmit H second user task s)
  /\ completion_of (TaskForm.onSubmit H second user task s1)
     = completion_of (TaskForm.onSubmit H second user task s)
  /\ TaskForm.form_values (state_of (TaskForm.onSubmit H second user task s1))
     = TaskForm.form_values s.
Proof.
  intros s1.
  assert (V : TaskForm.form_values s1 = TaskForm.form_values s).
  { subst s1. rewrite onSubmit_run.
    destruct (TaskForm.taskSchema (TaskForm.form_values s)); [reflexivity|].
    destruct user; reflexivity. }
  rewrite (onSubmit_run H second user task s1), (onSubmit_run H second user task s).
  rewrite V.
  destruct (TaskForm.taskSchema (TaskForm.form_values s)); [repeat split|].
  destruct user; repeat split.
Qed.

(** X4. The schema does not look at the due date, so a due date that the
    host cannot read as a date passes validation; the submission of a
    signed-in user is then stopped by the RangeError of [toISOString]:
    no request is sent and the save callback is not called, the "Error"
    toast shows the host's message (or "Failed to save task" when that
    is empty), and [loading] is false again. *)
Theorem onSubmit_unreadable_due_date (H : JS.Host) (supabase : Request -> Response)
    (u : User) (task : option Task) (s : TaskForm.State)
    (fd : TaskForm.TaskFormData) (d : string)
    (Hvalid : TaskForm.taskSchema (TaskForm.form_values s) = inr fd)
    (Hdue : TaskForm.v_due_date (TaskForm.form_values s) = Some d)
    (Hfilled : d <> "")
    (Hnodate : JS.Date_of_string H d = None) :
  TaskForm.onSubmit H supabase (Some u) task s =
  ({| TaskForm.loading := false;
      TaskForm.form_values := TaskForm.form_values s;
      TaskForm.errors := [] |},
   [Ev_toast {| toast_title := "Error";
                toast_description :=
                  if (JS.invalid_time H =? "")%string
                  then "Failed to save task" else JS.invalid_time H;
                variant := Some "destructive" |}],
   Normal tt).
Proof.
  rewrite onSubmit_run, Hvalid.
  destruct (taskSchema_inr _ _ Hvalid) as (_ & _ & _ & Edue).
  unfold TaskForm.submit_events, TaskForm.due_date_outcome.
  rewrite Edue, Hdue. unfold JS.truthy.
  destruct (String.eqb_spec d ""); [contradiction|]. cbn [negb].
  rewrite Hnodate. reflexivity.
Qed.

Lemma onSubmit_unreadable_due_date_witness :
  TaskForm.onSubmit JS.browser Sample.server_ok (Some Sample.alice) None
    (Sample.mounted (Sample.with_due Sample.filled (Some "next week")))
  = ({| TaskForm.loading := false;
        TaskForm.form_values := Sample.with_due Sample.filled (Some "next week");
        TaskForm.errors := [] |},
     [Ev_toast {| toast_title := "Error";
                  toast_description := "Invalid time value";
                  variant := Some "destructive" |}],
     Normal tt).
Proof.
  apply (onSubmit_unreadable_due_date JS.browser Sample.server_ok Sample.alice
           None
           (Sample.mounted (Sample.with_due Sample.filled (Some "next week")))
           {| TaskForm.data_title := "Write report";
              TaskForm.data_description := Some "";
              TaskForm.data_status := pending;
              TaskForm.data_priority := medium;
              TaskForm.data_due_date := Some "next week" |}
           "next week").
  - reflexivity.
  - reflexivity.
  - discriminate.
  - reflexivity.
Defined.

(** X6. The payload of every request a submission sends has the six keys
    [title], [description], [status], [priority], [due_date], [user_id]
    in this order; title, status and priority are the values of the form,
    a non-empty description is sent as it is, the user's id is sent on
    update as on create, and with a task supplied the request is an update
    of the row with that task's id. *)
Theorem submission_payload (H : JS.Host) (supabase : Request -> Response)
    (user : option User) (task : option Task) (s : TaskForm.State)
    (req : Request)
    (Hsent : In (Ev_request req)
               (trace_of (TaskForm.onSubmit H supabase user task s))) :
  exists u p,
    user = Some u
    /\ req = TaskForm.save_request task p
    /\ keys p = ["title"; "description"; "status"; "priority"; "due_date"; "user_id"]
    /\ get "title" p = Some (JStr (TaskForm.v_title (TaskForm.form_values s)))
    /\ get "status" p = Some (JStr (TaskForm.v_status (TaskForm.form_values s)))
    /\ get "priority" p = Some (JStr (TaskForm.v_priority (TaskForm.form_values s)))
    /\ get "user_id" p = Some (JStr (user_id u))
    /\ (forall d, TaskForm.v_description (TaskForm.form_values s) = Some d ->
                  d <> "" -> get "description" p = Some (JStr d))
    /\ (forall t, task = Some t -> req = Update "tasks" p (id t)).
Proof.
  destruct (onSubmit_request H supabase user task s req Hsent)
    as (u & fd & due & U & V & _ & R & _).
  destruct (taskSchema_echo _ fd V) as (E1 & E2 & E3 & E4 & _).
  exists u, (TaskForm.taskData_literal u fd due).
  split; [exact U|]. split; [exact R|].
  unfold TaskForm.taskData_literal, keys, get. cbn [map fst String.eqb Ascii.eqb Bool.eqb].
  rewrite E1, E2, E3, E4.
  repeat split.
  - intros d Ed Hd. unfold JS.or_else. rewrite Ed.
    destruct (String.eqb_spec d ""); [contradiction | reflexivity].
  - intros t ->. rewrite R. unfold TaskForm.save_request, TaskForm.taskData_literal.
    rewrite E1, E2, E3, E4. reflexivity.
Qed.

Lemma submission_payload_witness :
  exists u p,
    Some Sample.alice = Some u
    /\ Update "tasks"
         [("title", JStr "Write report"); ("description", JNull);
          ("status", JStr "pending"); ("priority", JStr "medium");
          ("due_date", JStr "2024-01-15T00:00:00.000Z");
          ("user_id", JStr "u-42")] "t-1"
       = TaskForm.save_request (Some Sample.report) p
    /\ keys p = ["title"; "description"; "status"; "priority"; "due_date"; "user_id"]
    /\ get "title" p = Some (JStr "Write report")
    /\ get "status" p = Some (JStr "pending")
    /\ get "priority" p = Some (JStr "medium")
    /\ get "user_id" p = Some (JStr (user_id u))
    /\ (forall d, Some "" = Some d -> d <> "" -> get "description" p = Some (JStr d))
    /\ (forall t, Some Sample.report = Some t ->
          Update "tasks"
            [("title", JStr "Write report"); ("description", JNull);
             ("status", JStr "pending"); ("priority", JStr "medium");
             ("due_date", JStr "2024-01-15T00:00:00.000Z");
             ("user_id", JStr "u-42")] "t-1"
          = Update "tasks" p (id t)).
Proof.
  apply (submission_payload JS.browser Sample.server_down (Some Sample.alice)
           (Some Sample.report) (Sample.mounted Sample.filled)).
  vm_compute. left. reflexivity.
Defined.

(* ===================================================================== *)
(** ** Notifications and the views *)
(* ===================================================================== *)

Lemma message_or_nonempty (e : JsError) (fallback : string) :
  fallback <> "" -> message_or e fallback <> "".
Proof.
  intros Hf. rewrite message_or_spec.
  destruct (message e) as [m|]; [|exact Hf].
  destruct (String.eqb_spec m ""); assumption.
Qed.

(** X7. No notification is ever blank: every toast shown by a submission
    or by a quick status change has a non-empty title and a non-empty
    description, also when the error has no message or an empty one. *)
Theorem toasts_never_blank (H : JS.Host) (supabase : Request -> Response)
    (t : Toast) :
  (forall user task s,
      In (Ev_toast t) (trace_of (TaskForm.onSubmit H supabase user task s)) ->
      toast_title t <> "" /\ toast_description t <> "")
  /\ (forall task newStatus s,
        In (Ev_toast t)
           (trace_of (TaskCard.handleStatusChange supabase task newStatus s)) ->
        toast_title t <> "" /\ toast_description t <> "").
Proof.
  split.
  - intros user task s. rewrite onSubmit_run.
    destruct (TaskForm.taskSchema (TaskForm.form_values s)) as [issues|fd];
      [intros []|].
    destruct user as [u|]; [|intros []].
    unfold trace_of; cbn [fst snd].
    assert (He : forall e, toast_title (TaskForm.error_toast e) <> ""
                           /\ toast_description (TaskForm.error_toast e) <> "").
    { intros e. split; [discriminate|].
      apply message_or_nonempty. discriminate. }
    assert (Hs : toast_title (TaskForm.success_toast task) <> ""
                 /\ toast_description (TaskForm.success_toast task) <> "").
    { split; [discriminate|]. destruct task; discriminate. }
    destruct (submit_events_shape H supabase u task fd)
      as [[e E]|[(req & e & F & E)|(req & F & E)]]; rewrite E; cbn [In];
      intros Hin;
      repeat match goal with
             | Hin : _ \/ _ |- _ => destruct Hin as [Hin|Hin]
             | Hin : False |- _ => contradiction
             | Hin : Ev_toast _ = Ev_toast _ |- _ => injection Hin as <-
             | Hin : _ = Ev_toast _ |- _ => discriminate Hin
             end; auto.
  - intros task newStatus s. rewrite handleStatusChange_run.
    unfold trace_of; cbn [fst snd].
    destruct (error (supabase _)) as [e|]; cbn [In]; intros Hin;
      repeat match goal with
             | Hin : _ \/ _ |- _ => destruct Hin as [Hin|Hin]
             | Hin : False |- _ => contradiction
             | Hin : Ev_toast _ = Ev_toast _ |- _ => injection Hin as <-
             | Hin : _ = Ev_toast _ |- _ => discriminate Hin
             end; cbn.
    + split; [discriminate|]. apply message_or_nonempty. discriminate.
    + split; discriminate.
Qed.

Lemma toasts_never_blank_witness :
  toast_title {| toast_title := "Error";
                 toast_description := "Failed to update task status";
                 variant := Some "destructive" |} <> ""
  /\ toast_description {| toast_title := "Error";
                          toast_description := "Failed to update task status";
                          variant := Some "destructive" |} <> "".
Proof.
  apply (proj2 (toasts_never_blank JS.browser
                  (fun _ => {| data := None;
                               error := Some {| message := Some "" |} |})
                  {| toast_title := "Error";
                     toast_description := "Failed to update task status";
                     variant := Some "destructive" |})
           Sample.report completed Sample.idle).
  vm_compute. right. left. reflexivity.
Defined.

(** X8. A quick status change never lets an exception escape and does the
    same whatever [updating] was before.  It always shows exactly one
    notification, titled "Success" exactly when the server reported no
    error and "Error" (destructive) otherwise.  Afterwards the selector is
    enabled and still shows the status of the [task] prop: the card keeps
    no status of its own. *)
Theorem handleStatusChange_outcome (H : JS.Host)
    (toLocaleDateString : JS.Date -> string)
    (supabase : Request -> Response) (task : Task) (newStatus : Status)
    (s s' : TaskCard.State) :
  let req := Update "tasks" [("status", JStr (Status_value newStatus))] (id task) in
  let r := TaskCard.handleStatusChange supabase task newStatus s in
  r = TaskCard.handleStatusChange supabase task newStatus s'
  /\ completion_of r = Normal tt
  /\ (exists t,
        filter is_toast (trace_of r) = [Ev_toast t]
        /\ (toast_title t = "Success" <-> error (supabase req) = None)
        /\ (toast_title t = "Error" /\ variant t = Some "destructive"
            <-> error (supabase req) <> None))
  /\ TaskCardView.select_disabled
       (TaskCardView.render H toLocaleDateString task (state_of r)) = false
  /\ TaskCardView.select_value
       (TaskCardView.render H toLocaleDateString task (state_of r)) = status task.
Proof.
  intros req r. subst r. rewrite !handleStatusChange_run. fold req.
  split; [reflexivity|]. split; [reflexivity|].
  split; [|split; reflexivity].
  unfold trace_of; cbn [fst snd].
  destruct (error (supabase req)) as [e|].
  - eexists. split; [reflexivity|]. cbn. split.
    + split; discriminate.
    + split; [intros _; discriminate | intros _; split; reflexivity].
  - eexists. split; [reflexivity|]. cbn. split.
    + split; reflexivity.
    + split; [intros [E _]; discriminate | intros N; now elim N].
Qed.

Lemma enum_issue_path {A} (field : string) (options : list (string * A))
    (v : string) (i : Zod.Issue) :
  In i (Zod.issues_of (Zod.enum field options v)) -> Zod.path i = field.
Proof.
  unfold Zod.enum. destruct (find _ options); cbn; [intros []|].
  intros [<-|[]]. reflexivity.
Qed.

Lemma field_error_none (field : string) (errs : list Zod.Issue) :
  (forall i, In i errs -> Zod.path i <> field) ->
  Zod.field_error field errs = None.
Proof.
  unfold Zod.field_error. intros Hp.
  induction errs as [|i errs IH]; [reflexivity|]. cbn [find].
  destruct (String.eqb_spec (Zod.path i) field) as [E|_].
  - elim (Hp i (or_introl eq_refl) E).
  - apply IH. intros j Hj. apply Hp. now right.
Qed.

(** X9. The form shows the message of a title issue only.  When the title
    is fine but the status or the priority is not one of the enumerated
    values, a submission is rejected without a trace: no request, no
    callback, no notification, and no message under the title either,
    although the issue is recorded. *)
Theorem onSubmit_silent_rejection (H : JS.Host) (supabase : Request -> Response)
    (user : option User) (task : option Task) (s : TaskForm.State)
    (Htitle : (1 <= String.length (TaskForm.v_title (TaskForm.form_values s)) <= 100)%nat)
    (Hbad : (forall st, TaskForm.v_status (TaskForm.form_values s) <> Status_value st)
            \/ (forall pr, TaskForm.v_priority (TaskForm.form_values s)
                           <> Priority_value pr)) :
  let r := TaskForm.onSubmit H supabase user task s in
  trace_of r = []
  /\ TaskForm.errors (state_of r) <> []
  /\ TaskFormView.title_error (TaskFormView.render task (state_of r)) = None
  /\ TaskFormView.submit_disabled (TaskFormView.render task (state_of r))
     = TaskForm.loading s.
Proof.
  intros r. subst r. rewrite onSubmit_run.
  destruct (TaskForm.taskSchema (TaskForm.form_values s)) as [issues|fd] eqn:E.
  - unfold trace_of, state_of, TaskFormView.render;
      cbn [fst snd TaskForm.errors TaskForm.loading TaskFormView.title_error
           TaskFormView.submit_disabled].
    assert (Hiss : issues
                   = (Zod.issues_of (TaskForm.status_check
                                       (TaskForm.v_status (TaskForm.form_values s)))
                      ++ Zod.issues_of (TaskForm.priority_check
                                          (TaskForm.v_priority (TaskForm.form_values s))))%list).
    { unfold TaskForm.taskSchema in E.
      rewrite (proj2 (title_check_nil _) Htitle) in E.
      destruct (TaskForm.status_check _); destruct (TaskForm.priority_check _);
        cbn [Zod.issues_of app] in E |- *; congruence. }
    split; [reflexivity|]. split; [|split; [|reflexivity]].
    + intros ->. symmetry in Hiss. apply app_eq_nil in Hiss. destruct Hiss as [Hs Hp].
      destruct Hbad as [Hb|Hb].
      * destruct (TaskForm.status_check _) as [i|st] eqn:C; cbn in Hs.
        -- unfold TaskForm.status_check, Zod.enum in C.
           destruct (find _ _); [discriminate|]. injection C as <-. discriminate.
        -- apply status_check_inr in C. elim (Hb st C).
      * destruct (TaskForm.priority_check _) as [i|pr] eqn:C; cbn in Hp.
        -- unfold TaskForm.priority_check, Zod.enum in C.
           destruct (find _ _); [discriminate|]. injection C as <-. discriminate.
        -- apply priority_check_inr in C. elim (Hb pr C).
    + apply field_error_none. intros i Hin. rewrite Hiss in Hin.
      apply in_app_or in Hin. destruct Hin as [Hin|Hin];
        apply enum_issue_path in Hin; rewrite Hin; discriminate.
  - exfalso.
    destruct (proj1 (taskSchema_checks _) (ex_intro _ fd E))
      as (_ & [st S] & [pr P]).
    destruct Hbad as [Hb|Hb]; [elim (Hb st S) | elim (Hb pr P)].
Qed.

Lemma onSubmit_silent_rejection_witness :
  trace_of (TaskForm.onSubmit JS.browser Sample.server_ok (Some Sample.alice)
              (Some (Sample.with_status Sample.report "archived"))
              (Sample.mounted
                 {| TaskForm.v_title := "Write report";
                    TaskForm.v_description := Some "";
                    TaskForm.v_status := "archived";
                    TaskForm.v_priority := "high";
                    TaskForm.v_due_date := Some "" |})) = [].
Proof.
  apply (onSubmit_silent_rejection JS.browser Sample.server_ok (Some Sample.alice)
           (Some (Sample.with_status Sample.report "archived"))
           (Sample.mounted
              {| TaskForm.v_title := "Write report";
                 TaskForm.v_description := Some "";
                 TaskForm.v_status := "archived";
                 TaskForm.v_priority := "high";
                 TaskForm.v_due_date := Some "" |})).
  - cbn. lia.
  - left. intros st. destruct st; discriminate.
Defined.

(* ===================================================================== *)
(** ** Mounting the form *)
(* ===================================================================== *)

(** The state the form mounts in for a given [due_date] entry. *)
Lemma mount_without_due_date (H : JS.Host) (task : option Task) :
  (forall t, task = Some t -> JS.truthy (due_date t) = false) ->
  TaskFormView.mount H task tt =
  (tt, [], Normal {| TaskForm.loading := false;
                     TaskForm.form_values := TaskFormView.defaultValues_literal task "";
                     TaskForm.errors := [] |}).
Proof.
  intros Hd. unfold TaskFormView.mount, TaskFormView.defaultValues,
    TaskFormView.default_due_date.
  destruct task as [t|]; [|reflexivity].
  specialize (Hd t eq_refl).
  destruct (due_date t) as [d|]; [|reflexivity].
  rewrite Hd. reflexivity.
Qed.

Lemma mount_with_due_date (H : JS.Host) (t : Task) (d : string) :
  due_date t = Some d -> d <> "" ->
  TaskFormView.mount H (Some t) tt =
  (tt, [],
   match JS.Date_of_string H d with
   | Some tm =>
       Normal {| TaskForm.loading := false;
                 TaskForm.form_values :=
                   TaskFormView.defaultValues_literal (Some t)
                     (JSString.before_first "T" (JS.iso_of_time tm));
                 TaskForm.errors := [] |}
   | None => Throw {| message := Some (JS.invalid_time H) |}
   end).
Proof.
  intros Ed Hd. unfold TaskFormView.mount, TaskFormView.defaultValues,
    TaskFormView.default_due_date.
  rewrite Ed. unfold JS.truthy.
  destruct (String.eqb_spec d ""); [contradiction|]. cbn [negb].
  unfold toISOString, bind, ret, throw.
  destruct (JS.Date_of_string H d); reflexivity.
Qed.

Lemma truthy_false_cases (o : option string) :
  JS.truthy o = false <-> o = None \/ o = Some "".
Proof.
  unfold JS.truthy. destruct o as [s|]; [|split; auto].
  destruct (String.eqb_spec s ""); cbn; split; intros E; try discriminate.
  - right. now subst.
  - reflexivity.
  - destruct E as [E|E]; [discriminate | congruence].
Qed.

(** X11. The form can be mounted exactly when the supplied task (if any)
    has no due date, an empty one, or one the host reads as a date; with
    any other due date the first render throws the RangeError of
    [toISOString].  A mounted form is idle and without errors, its submit
    button is enabled, and every input holds a string: an absent
    description or due date is shown as the empty string. *)
Theorem mount_succeeds_iff (H : JS.Host) (task : option Task) :
  ((exists st, completion_of (TaskFormView.mount H task tt) = Normal st) <->
   (forall t d, task = Some t -> due_date t = Some d -> d <> "" ->
                JS.Date_of_string H d <> None))
  /\ (forall e, completion_of (TaskFormView.mount H task tt) = Throw e ->
                e = {| message := Some (JS.invalid_time H) |})
  /\ (forall st, completion_of (TaskFormView.mount H task tt) = Normal st ->
        TaskForm.loading st = false
        /\ TaskForm.errors st = []
        /\ TaskFormView.submit_disabled (TaskFormView.render task st) = false
        /\ (exists desc due,
              TaskForm.v_description (TaskForm.form_values st) = Some desc
              /\ TaskForm.v_due_date (TaskForm.form_values st) = Some due
              /\ (forall t, task = Some t -> JS.truthy (description t) = false ->
                            desc = "")
              /\ ((forall t, task = Some t -> JS.truthy (due_date t) = false) ->
                  due = ""))).
Proof.
  assert (Hcase : (forall t, task = Some t -> JS.truthy (due_date t) = false)
                  \/ exists t d, task = Some t /\ due_date t = Some d /\ d <> "").
  { destruct task as [t|]; [|left; discriminate].
    destruct (due_date t) as [d|] eqn:Ed.
    - destruct (String.eqb_spec d "") as [->|N].
      + left. intros t' E. injection E as <-. now rewrite Ed.
      + right. now exists t, d.
    - left. intros t' E. injection E as <-. now rewrite Ed. }
  destruct Hcase as [Hno|(t & d & -> & Ed & Hd)].
  - rewrite (mount_without_due_date H task Hno). unfold completion_of; cbn [snd].
    split; [split|split].
    + intros _ t d Et Ed Hd. specialize (Hno t Et). rewrite Ed in Hno.
      apply truthy_false_cases in Hno. destruct Hno as [E|E]; congruence.
    + intros _. eexists. reflexivity.
    + discriminate.
    + intros st E. injection E as <-. cbn.
      repeat split. eexists. eexists. repeat split.
      intros t -> Hdesc. apply truthy_false_cases in Hdesc.
      destruct Hdesc as [->| ->]; reflexivity.
  - rewrite (mount_with_due_date H t d Ed Hd). unfold completion_of; cbn [snd].
    destruct (JS.Date_of_string H d) as [tm|] eqn:D.
    + split; [split|split].
      * intros _ t' d' Et Ed' _. injection Et as <-. rewrite Ed in Ed'.
        injection Ed' as <-. rewrite D. discriminate.
      * intros _. eexists. reflexivity.
      * discriminate.
      * intros st E. injection E as <-.
        cbn [TaskForm.loading TaskForm.errors TaskForm.form_values
             TaskFormView.render TaskFormView.submit_disabled
             TaskFormView.defaultValues_literal TaskForm.v_description
             TaskForm.v_due_date].
        repeat split. eexists. eexists. split; [reflexivity|].
        split; [reflexivity|]. split.
        -- intros t' E Hdesc. injection E as <-. apply truthy_false_cases in Hdesc.
           destruct Hdesc as [->| ->]; reflexivity.
        -- intros Hno. specialize (Hno t eq_refl). rewrite Ed in Hno.
           apply truthy_false_cases in Hno. destruct Hno as [E|E]; congruence.
    + split; [split|split].
      * intros [st E]. discriminate.
      * intros Hall. elim (Hall t d eq_refl Ed Hd). exact D.
      * intros e E. now injection E as <-.
      * discriminate.
Qed.

Lemma mount_succeeds_iff_witness :
  exists st, completion_of (TaskFormView.mount JS.browser (Some Sample.report) tt)
             = Normal st.
Proof.
  apply (proj2 (proj1 (mount_succeeds_iff JS.browser (Some Sample.report)))).
  intros t d E Ed _. injection E as <-. injection Ed as <-.
  vm_compute. discriminate.
Defined.

(** X10. A create form that is submitted untouched is rejected: it mounts
    with an empty title, status "pending" and priority "medium", and its
    submission sends no request, calls no callback, shows no toast and
    puts "Title is required" under the title. *)
Theorem create_form_untouched (H : JS.Host) (supabase : Request -> Response)
    (user : option User) :
  exists st,
    TaskFormView.mount H None tt = (tt, [], Normal st)
    /\ TaskForm.form_values st
       = {| TaskForm.v_title := ""; TaskForm.v_description := Some "";
            TaskForm.v_status := "pending"; TaskForm.v_priority := "medium";
            TaskForm.v_due_date := Some "" |}
    /\ trace_of (TaskForm.onSubmit H supabase user None st) = []
    /\ TaskFormView.title_error
         (TaskFormView.render None
            (state_of (TaskForm.onSubmit H supabase user None st)))
       = Some "Title is required".
Proof.
  eexists. split; [reflexivity|]. split; [reflexivity|].
  split; reflexivity.
Qed.

(* ===================================================================== *)
(** ** Dates: from the stored due date to the form and back *)
(* ===================================================================== *)

Lemma days_ok_all (n : nat) (k j : Z) :
  Calendar.days_ok n k = true -> k <= j < k + Z.of_nat n ->
  Calendar.day_ok j = true.
Proof.
  revert k. induction n as [|n IH]; intros k Hall Hj; [lia|].
  cbn [Calendar.days_ok] in Hall. apply andb_prop in Hall.
  destruct Hall as [Hk Hrest].
  destruct (Z.eq_dec j k) as [->|N]; [exact Hk|].
  apply (IH (k + 1) Hrest). lia.
Qed.

Lemma every_day_ok (doe : Z) :
  0 <= doe < 146097 -> Calendar.day_ok doe = true.
Proof.
  intros Hd. apply (days_ok_all (Z.to_nat 146097) 0).
  - vm_compute. reflexivity.
  - lia.
Qed.

Ltac zdiv := Z.to_euclidean_division_equations; lia.

Lemma digit_cases (n : Z) (P : ascii -> Prop) :
  P "0"%char -> P "1"%char -> P "2"%char -> P "3"%char -> P "4"%char ->
  P "5"%char -> P "6"%char -> P "7"%char -> P "8"%char -> P "9"%char ->
  P (JS.digit n).
Proof.
  intros P0 P1 P2 P3 P4 P5 P6 P7 P8 P9. unfold JS.digit.
  pose proof (Z.mod_pos_bound n 10 eq_refl) as Hb.
  remember (n mod 10) as k eqn:Ek. clear Ek.
  assert (Hk : k = 0 \/ k = 1 \/ k = 2 \/ k = 3 \/ k = 4 \/ k = 5 \/ k = 6
               \/ k = 7 \/ k = 8 \/ k = 9) by zdiv.
  repeat (destruct Hk as [->|Hk]; [assumption|]). subst k. assumption.
Qed.

Lemma is_digit_digit (n : Z) : JS.is_digit (JS.digit n) = true.
Proof. apply digit_cases; reflexivity. Qed.

Lemma digit_not_T (n : Z) : Ascii.eqb (JS.digit n) "T" = false.
Proof. apply digit_cases; reflexivity. Qed.

Lemma digit_value (n : Z) :
  Z.of_nat (nat_of_ascii (JS.digit n)) - 48 = n mod 10.
Proof.
  unfold JS.digit.
  pose proof (Z.mod_pos_bound n 10 eq_refl) as Hb.
  remember (n mod 10) as k eqn:Ek. clear Ek.
  assert (Hk : k = 0 \/ k = 1 \/ k = 2 \/ k = 3 \/ k = 4 \/ k = 5 \/ k = 6
               \/ k = 7 \/ k = 8 \/ k = 9) by zdiv.
  repeat (destruct Hk as [->|Hk]; [reflexivity|]). subst k. reflexivity.
Qed.

(** The text [YYYY-MM-DD] made of eight characters. *)
Lemma plain_date_of_digits (c1 c2 c3 c4 c5 c6 c7 c8 : ascii) :
  JS.is_digit c1 = true -> JS.is_digit c2 = true -> JS.is_digit c3 = true ->
  JS.is_digit c4 = true -> JS.is_digit c5 = true -> JS.is_digit c6 = true ->
  JS.is_digit c7 = true -> JS.is_digit c8 = true ->
  TaskForm.plain_date_string
    (String c1 (String c2 (String c3 (String c4 (String "-"
       (String c5 (String c6 (String "-" (String c7 (String c8 ""))))))))))
  = true.
Proof.
  intros H1 H2 H3 H4 H5 H6 H7 H8.
  unfold TaskForm.plain_date_string, JS.number_at, JS.char_at.
  cbn [String.length substring Nat.eqb JS.digits_value andb].
  rewrite H1, H2, H3, H4, H5, H6, H7, H8. reflexivity.
Qed.

Lemma before_first_T_date (c1 c2 c3 c4 c5 c6 c7 c8 : ascii) (rest : string) :
  Ascii.eqb c1 "T" = false -> Ascii.eqb c2 "T" = false ->
  Ascii.eqb c3 "T" = false -> Ascii.eqb c4 "T" = false ->
  Ascii.eqb c5 "T" = false -> Ascii.eqb c6 "T" = false ->
  Ascii.eqb c7 "T" = false -> Ascii.eqb c8 "T" = false ->
  JSString.before_first "T"
    (String c1 (String c2 (String c3 (String c4 (String "-"
       (String c5 (String c6 (String "-" (String c7 (String c8
          (String "T" rest)))))))))))
  = String c1 (String c2 (String c3 (String c4 (String "-"
       (String c5 (String c6 (String "-" (String c7 (String c8 ""))))))))).
Proof.
  intros H1 H2 H3 H4 H5 H6 H7 H8. cbn [JSString.before_first].
  rewrite H1, H2, H3, H4, H5, H6, H7, H8. reflexivity.
Qed.

(** The date [y]-[m]-[d] written as [toISOString] writes it. *)
Lemma iso_date_text (y m d : Z) :
  JS.pad4 y ++ "-" ++ JS.pad2 m ++ "-" ++ JS.pad2 d
  = String (JS.digit (y / 1000)) (String (JS.digit (y / 100))
      (String (JS.digit (y / 10)) (String (JS.digit y) (String "-"
         (String (JS.digit (m / 10)) (String (JS.digit m) (String "-"
            (String (JS.digit (d / 10)) (String (JS.digit d) ""))))))))).
Proof. reflexivity. Qed.

Lemma plain_date_iso_date (y m d : Z) :
  TaskForm.plain_date_string (JS.pad4 y ++ "-" ++ JS.pad2 m ++ "-" ++ JS.pad2 d)
  = true.
Proof.
  rewrite iso_date_text. apply plain_date_of_digits; apply is_digit_digit.
Qed.

(** A host that reads [YYYY-MM-DD] by the book reads the date written by
    [toISOString] as the midnight, UTC, that starts this day. *)
Lemma parse_iso_date (y m d : Z) :
  0 <= y <= 9999 -> 1 <= m <= 12 -> 1 <= d <= JS.days_in_month y m ->
  JS.parse_iso (JS.pad4 y ++ "-" ++ JS.pad2 m ++ "-" ++ JS.pad2 d)
  = Some (JS.days_from_civil y m d * JS.msPerDay).
Proof.
  intros Hy Hm Hd. rewrite iso_date_text.
  assert (Hd31 : d <= 31).
  { unfold JS.days_in_month in Hd.
    destruct (m =? 2); [destruct (JS.is_leap y); lia|].
    destruct ((m =? 4) || (m =? 6) || (m =? 9) || (m =? 11)); lia. }
  unfold JS.parse_iso, JS.parse_date_part, JS.number_at, JS.char_at.
  cbn [String.length substring Nat.eqb JS.digits_value].
  rewrite !is_digit_digit, !digit_value.
  replace ((((0 * 10 + (y / 1000) mod 10) * 10 + (y / 100) mod 10) * 10
            + (y / 10) mod 10) * 10 + y mod 10) with y by zdiv.
  replace ((0 * 10 + (m / 10) mod 10) * 10 + m mod 10) with m by zdiv.
  replace ((0 * 10 + (d / 10) mod 10) * 10 + d mod 10) with d by zdiv.
  cbn [String.eqb Ascii.eqb Bool.eqb andb].
  destruct Hm as [Hm1 Hm2]. destruct Hd as [Hd1 Hd2].
  apply Z.leb_le in Hm1, Hm2, Hd1, Hd2.
  rewrite Hm1, Hm2, Hd1, Hd2. reflexivity.
Qed.

Lemma is_leap_period (y k : Z) : JS.is_leap (y + 400 * k) = JS.is_leap y.
Proof.
  unfold JS.is_leap.
  replace ((y + 400 * k) mod 4) with (y mod 4) by zdiv.
  replace ((y + 400 * k) mod 100) with (y mod 100) by zdiv.
  replace ((y + 400 * k) mod 400) with (y mod 400) by zdiv.
  reflexivity.
Qed.

Lemma days_in_month_period (y k m : Z) :
  JS.days_in_month (y + 400 * k) m = JS.days_in_month y m.
Proof. unfold JS.days_in_month. now rewrite is_leap_period. Qed.

(** What [JS.civil_from_days] returns is a date of the calendar, it is the
    date of the day it was given, and for the days from 0000-01-01 to
    9999-12-31 its year has four digits. *)
Lemma civil_from_days_facts (z : Z) :
  let '(y, m, d) := JS.civil_from_days z in
  1 <= m <= 12
  /\ 1 <= d <= JS.days_in_month y m
  /\ JS.days_from_civil y m d = z
  /\ (-719528 <= z <= 2932896 -> 0 <= y <= 9999).
Proof.
  unfold JS.civil_from_days. cbv zeta.
  set (z' := z + 719468). set (era := z' / 146097).
  set (doe := z' - era * 146097).
  assert (Hdoe : 0 <= doe < 146097) by (unfold doe, era; zdiv).
  pose proof (every_day_ok doe Hdoe) as Hok.
  unfold Calendar.day_ok in Hok. cbv zeta in Hok.
  set (yoe := (doe - doe / 1460 + doe / 36524 - doe / 146096) / 365) in *.
  set (doy := doe - (365 * yoe + yoe / 4 - yoe / 100)) in *.
  set (mp := (5 * doy + 2) / 153) in *.
  set (d := doy - (153 * mp + 2) / 5 + 1) in *.
  set (m := if mp <? 10 then mp + 3 else mp - 9) in *.
  repeat (apply andb_prop in Hok; let H := fresh "C" in destruct Hok as [Hok H]).
  apply Z.leb_le in Hok, C5, C4, C3, C2, C1, C0.
  apply Bool.eqb_prop in C.
  assert (Hm : 1 <= m <= 12 /\ (if m <=? 2 then m + 9 else m - 3) = mp).
  { unfold m. destruct (Z.ltb_spec mp 10) as [L|L].
    - destruct (Z.leb_spec (mp + 3) 2); lia.
    - destruct (Z.leb_spec (mp - 9) 2); lia. }
  destruct Hm as [Hm Hm2].
  split; [exact Hm|].
  assert (Hy : (if m <=? 2 then yoe + era * 400 + 1 else yoe + era * 400)
               = (if m <=? 2 then yoe + 1 else yoe) + 400 * era).
  { destruct (m <=? 2); lia. }
  rewrite Hy, days_in_month_period.
  split; [lia|]. split.
  - rewrite <- Hy. unfold JS.days_from_civil. cbv zeta.
    replace (if m <=? 2
             then (if m <=? 2 then yoe + era * 400 + 1 else yoe + era * 400) - 1
             else (if m <=? 2 then yoe + era * 400 + 1 else yoe + era * 400))
      with (yoe + era * 400) by (destruct (m <=? 2); lia).
    replace ((yoe + era * 400) / 400) with era by zdiv.
    replace (yoe + era * 400 - era * 400) with yoe by lia.
    rewrite Hm2. unfold d, doy, doe, z'. lia.
  - intros Hz.
    assert (He : -1 <= era <= 24) by (unfold era, z'; zdiv).
    destruct (Z.ltb_spec doe 146037) as [Hlt|Hge];
      destruct (Z.leb_spec (if m <=? 2 then yoe + 1 else yoe) 399) as [Hyo|Hyo];
      try discriminate C.
    + assert (0 <= era) by (unfold doe, z' in *; lia).
      destruct (m <=? 2); lia.
    + assert (era <= 23) by (unfold doe, z' in *; lia).
      destruct (m <=? 2); lia.
Qed.

(** For a time in the years 0000 to 9999, the text of [toISOString] up to
    its [T] is the date of the day, UTC, the time lies in. *)
Lemma iso_of_time_date (t : Z) :
  -62167219200000 <= t <= 253402300799999 ->
  exists y m d,
    JS.civil_from_days (t / JS.msPerDay) = (y, m, d)
    /\ 0 <= y <= 9999 /\ 1 <= m <= 12 /\ 1 <= d <= JS.days_in_month y m
    /\ JS.days_from_civil y m d = t / JS.msPerDay
    /\ JSString.before_first "T" (JS.iso_of_time t)
       = JS.pad4 y ++ "-" ++ JS.pad2 m ++ "-" ++ JS.pad2 d.
Proof.
  intros Ht. unfold JS.iso_of_time.
  pose proof (civil_from_days_facts (t / JS.msPerDay)) as F.
  destruct (JS.civil_from_days (t / JS.msPerDay)) as [[y m] d].
  destruct F as (Hm & Hd & Hr & Hy).
  assert (Hy' : 0 <= y <= 9999) by (apply Hy; unfold JS.msPerDay; zdiv).
  exists y, m, d. repeat (split; [assumption || reflexivity|]).
  unfold JS.iso_year.
  destruct (Z.leb_spec 0 y); [|lia]. destruct (Z.leb_spec y 9999); [|lia].
  cbn [andb]. rewrite iso_date_text.
  apply before_first_T_date; apply digit_not_T.
Qed.

(** The mounted due-date field of a task whose stored due date the host
    reads as a time in the years 0000 to 9999. *)
Lemma default_due_date_plain_facts (H : JS.Host) (t : Task) (d : string) (tm : Z) :
  due_date t = Some d -> d <> "" ->
  JS.Date_of_string H d = Some tm ->
  -62167219200000 <= tm <= 253402300799999 ->
  exists ds,
    TaskFormView.mount H (Some t) tt
    = (tt, [], Normal {| TaskForm.loading := false;
                         TaskForm.form_values :=
                           TaskFormView.defaultValues_literal (Some t) ds;
                         TaskForm.errors := [] |})
    /\ TaskForm.plain_date_string ds = true
    /\ JS.parse_iso ds = Some (tm / JS.msPerDay * JS.msPerDay)
    /\ ds = JSString.before_first "T" (JS.iso_of_time tm).
Proof.
  intros Hdue Hfilled Hdate Hyear.
  rewrite (mount_with_due_date H t d Hdue Hfilled), Hdate.
  destruct (iso_of_time_date tm Hyear) as (y & m & dd & _ & Hy & Hm & Hd & Hr & E).
  eexists. split; [reflexivity|]. rewrite E. split; [|split; [|reflexivity]].
  - apply plain_date_iso_date.
  - rewrite (parse_iso_date y m dd Hy Hm Hd), Hr. reflexivity.
Qed.

(** X12. When the host reads the stored due date of the supplied task as
    a time in the years 0000 to 9999, the form mounts with a due-date
    field that is a plain date string [YYYY-MM-DD], and that date is the
    day, UTC, in which the stored time lies: read by the book it gives the
    midnight that starts this day. *)
Theorem default_due_date_plain (H : JS.Host) (t : Task) (d : string) (tm : Z)
    (Hdue : due_date t = Some d) (Hfilled : d <> "")
    (Hdate : JS.Date_of_string H d = Some tm)
    (Hyear : -62167219200000 <= tm <= 253402300799999) :
  exists st s,
    TaskFormView.mount H (Some t) tt = (tt, [], Normal st)
    /\ TaskForm.v_due_date (TaskForm.form_values st) = Some s
    /\ s = JSString.before_first "T" (JS.iso_of_time tm)
    /\ TaskForm.plain_date_string s = true
    /\ JS.parse_iso s = Some (tm / JS.msPerDay * JS.msPerDay).
Proof.
  rewrite (mount_with_due_date H t d Hdue Hfilled), Hdate.
  destruct (iso_of_time_date tm Hyear) as (y & m & dd & _ & Hy & Hm & Hd & Hr & E).
  eexists. eexists. split; [reflexivity|].
  cbn [TaskForm.form_values TaskFormView.defaultValues_literal TaskForm.v_due_date].
  split; [reflexivity|]. split; [reflexivity|]. rewrite E. split.
  - apply plain_date_iso_date.
  - rewrite (parse_iso_date y m dd Hy Hm Hd), Hr. reflexivity.
Qed.

Lemma default_due_date_plain_witness :
  exists st s,
    TaskFormView.mount JS.browser
      (Some (Sample.with_status Sample.report "pending")) tt
    = (tt, [], Normal st)
    /\ TaskForm.v_due_date (TaskForm.form_values st) = Some s
    /\ s = JSString.before_first "T" (JS.iso_of_time 1705190400000)
    /\ TaskForm.plain_date_string s = true
    /\ JS.parse_iso s = Some (1705190400000 / JS.msPerDay * JS.msPerDay).
Proof.
  apply (default_due_date_plain JS.browser
           (Sample.with_status Sample.report "pending")
           "2024-01-14T00:00:00.000Z" 1705190400000).
  - reflexivity.
  - discriminate.
  - reflexivity.
  - lia.
Defined.

(* ===================================================================== *)
(** ** Saving an edit form as it was mounted *)
(* ===================================================================== *)

Lemma or_else_nonempty (s fallback : string) :
  s <> "" -> JS.or_else (Some s) (fun x => x) fallback = s.
Proof.
  intros N. unfold JS.or_else. destruct (String.eqb_spec s ""); [contradiction|reflexivity].
Qed.

Lemma or_else_round (o : option string) :
  JS.or_else (Some (JS.or_else o (fun x => x) "")) JStr JNull
  = JS.or_else o JStr JNull.
Proof.
  unfold JS.or_else. destruct o as [s|]; [|reflexivity].
  destruct (String.eqb_spec s "") as [->|N]; [reflexivity|].
  destruct (String.eqb_spec s ""); [contradiction|reflexivity].
Qed.

(** The request sent when the form of a well-formed task is submitted with
    the values it mounted with, [ds] being the mounted due-date field and
    [due] what the handler makes of it. *)
Lemma edit_unchanged_request (H : JS.Host) (supabase : Request -> Response)
    (u : User) (t : Task) (st : Status) (pr : Priority) (ds : string)
    (due : Json) :
  (1 <= String.length (title t) <= 100)%nat ->
  status t = Status_value st -> priority t = Priority_value pr ->
  (forall fd, TaskForm.data_due_date fd = Some ds ->
              TaskForm.due_date_outcome H fd = inr due) ->
  filter is_request
    (trace_of (TaskForm.onSubmit H supabase (Some u) (Some t)
                 {| TaskForm.loading := false;
                    TaskForm.form_values :=
                      TaskFormView.defaultValues_literal (Some t) ds;
                    TaskForm.errors := [] |}))
  = [Ev_request
       (Update "tasks"
          [("title", JStr (title t));
           ("description", JS.or_else (description t) JStr JNull);
           ("status", JStr (status t));
           ("priority", JStr (priority t));
           ("due_date", due);
           ("user_id", JStr (user_id u))] (id t))].
Proof.
  intros Ht Hs Hp Hdue.
  assert (Nt : title t <> "") by (intros E; rewrite E in Ht; cbn in Ht; lia).
  assert (Ns : status t <> "") by (rewrite Hs; destruct st; discriminate).
  assert (Np : priority t <> "") by (rewrite Hp; destruct pr; discriminate).
  set (v := TaskFormView.defaultValues_literal (Some t) ds).
  assert (Ev : v = {| TaskForm.v_title := title t;
                      TaskForm.v_description :=
                        Some (JS.or_else (description t) (fun x => x) "");
                      TaskForm.v_status := status t;
                      TaskForm.v_priority := priority t;
                      TaskForm.v_due_date := Some ds |}).
  { unfold v, TaskFormView.defaultValues_literal. cbn [option_map].
    rewrite !or_else_nonempty by assumption. reflexivity. }
  destruct (proj2 (taskSchema_checks v)) as [fd V].
  { rewrite Ev. cbn. split; [exact Ht|]. split; [now exists st | now exists pr]. }
  destruct (taskSchema_echo v fd V) as (E1 & E2 & E3 & E4 & E5).
  rewrite Ev in E1, E2, E3, E4, E5. cbn in E1, E2, E3, E4, E5.
  rewrite (onSubmit_sends H supabase u (Some t)
             {| TaskForm.loading := false; TaskForm.form_values := v;
                TaskForm.errors := [] |} fd due V (Hdue fd E5)).
  unfold TaskForm.save_request, TaskForm.taskData_literal.
  rewrite E1, E2, E3, E4, or_else_round. reflexivity.
Qed.

(** X13. Submitting the edit form of a well-formed task without a due date
    exactly as it mounted writes the task back as it was: one update of the
    task's row carrying its title, status and priority, its description (an
    absent or empty one as null: shown as the empty string, sent as null),
    a null due date, and the user's id. *)
Theorem edit_unchanged_without_due_date (H : JS.Host)
    (supabase : Request -> Response) (u : User) (t : Task)
    (st : Status) (pr : Priority)
    (Htitle : (1 <= String.length (title t) <= 100)%nat)
    (Hstatus : status t = Status_value st)
    (Hpriority : priority t = Priority_value pr)
    (Hnodue : JS.truthy (due_date t) = false) :
  exists s0,
    TaskFormView.mount H (Some t) tt = (tt, [], Normal s0)
    /\ filter is_request
         (trace_of (TaskForm.onSubmit H supabase (Some u) (Some t) s0))
       = [Ev_request
            (Update "tasks"
               [("title", JStr (title t));
                ("description", JS.or_else (description t) JStr JNull);
                ("status", JStr (status t));
                ("priority", JStr (priority t));
                ("due_date", JNull);
                ("user_id", JStr (user_id u))] (id t))].
Proof.
  rewrite (mount_without_due_date H (Some t)).
  2:{ intros t' E. now injection E as <-. }
  eexists. split; [reflexivity|].
  apply (edit_unchanged_request H supabase u t st pr "" JNull); try assumption.
  intros fd E. unfold TaskForm.due_date_outcome. rewrite E. reflexivity.
Qed.

Lemma edit_unchanged_without_due_date_witness :
  exists s0,
    TaskFormView.mount JS.browser
      (Some {| id := "t-7"; title := "Plan"; description := None;
               status := "in_progress"; priority := "low"; due_date := None;
               created_at := "2024-01-01T09:30:00.000Z";
               updated_at := "2024-01-02T10:00:00.000Z" |}) tt
    = (tt, [], Normal s0)
    /\ filter is_request
         (trace_of (TaskForm.onSubmit JS.browser Sample.server_ok
                      (Some Sample.alice)
                      (Some {| id := "t-7"; title := "Plan"; description := None;
                               status := "in_progress"; priority := "low";
                               due_date := None;
                               created_at := "2024-01-01T09:30:00.000Z";
                               updated_at := "2024-01-02T10:00:00.000Z" |}) s0))
       = [Ev_request
            (Update "tasks"
               [("title", JStr "Plan"); ("description", JNull);
                ("status", JStr "in_progress"); ("priority", JStr "low");
                ("due_date", JNull); ("user_id", JStr "u-42")] "t-7")].
Proof.
  apply (edit_unchanged_without_due_date JS.browser Sample.server_ok Sample.alice
           {| id := "t-7"; title := "Plan"; description := None;
              status := "in_progress"; priority := "low"; due_date := None;
              created_at := "2024-01-01T09:30:00.000Z";
              updated_at := "2024-01-02T10:00:00.000Z" |} in_progress low).
  - cbn. lia.
  - reflexivity.
  - reflexivity.
  - reflexivity.
Defined.

(** The text of [toISOString] for the midnight that starts a day. *)
Lemma iso_of_time_midnight (z : Z) :
  -719528 <= z <= 2932896 ->
  JS.iso_of_time (z * JS.msPerDay)
  = JSString.before_first "T" (JS.iso_of_time (z * JS.msPerDay))
    ++ "T00:00:00.000Z".
Proof.
  intros Hz.
  assert (Ht : -62167219200000 <= z * JS.msPerDay <= 253402300799999)
    by (unfold JS.msPerDay; lia).
  destruct (iso_of_time_date _ Ht) as (y & m & d & C & Hy & _ & _ & _ & E).
  rewrite E. unfold JS.iso_of_time. rewrite C.
  replace ((z * JS.msPerDay) mod JS.msPerDay) with 0
    by (unfold JS.msPerDay; zdiv).
  unfold JS.iso_year.
  destruct (Z.leb_spec 0 y); [|lia]. destruct (Z.leb_spec y 9999); [|lia].
  cbn [andb]. rewrite !iso_date_text. reflexivity.
Qed.

(** X14. On a host that reads plain date strings by the book, submitting
    the edit form of a well-formed task exactly as it mounted keeps the day
    of the due date and resets its time to midnight, UTC: when the stored
    due date is a time [tm] in the years 0000 to 9999, the one request
    sent is an update of the task's row whose [due_date] is the text of
    [toISOString] for the start of the day of [tm], that is the mounted
    date followed by [T00:00:00.000Z]; the other fields are the task's. *)
Theorem edit_unchanged_due_date (H : JS.Host) (supabase : Request -> Response)
    (u : User) (t : Task) (st : Status) (pr : Priority) (d : string) (tm : Z)
    (Hbook : forall s, TaskForm.plain_date_string s = true ->
                       JS.Date_parse H s = JS.parse_iso s)
    (Htitle : (1 <= String.length (title t) <= 100)%nat)
    (Hstatus : status t = Status_value st)
    (Hpriority : priority t = Priority_value pr)
    (Hdue : due_date t = Some d) (Hfilled : d <> "")
    (Hdate : JS.Date_of_string H d = Some tm)
    (Hyear : -62167219200000 <= tm <= 253402300799999) :
  exists s0 ds,
    TaskFormView.mount H (Some t) tt = (tt, [], Normal s0)
    /\ TaskForm.v_due_date (TaskForm.form_values s0) = Some ds
    /\ JS.iso_of_time (tm / JS.msPerDay * JS.msPerDay) = ds ++ "T00:00:00.000Z"
    /\ filter is_request
         (trace_of (TaskForm.onSubmit H supabase (Some u) (Some t) s0))
       = [Ev_request
            (Update "tasks"
               [("title", JStr (title t));
                ("description", JS.or_else (description t) JStr JNull);
                ("status", JStr (status t));
                ("priority", JStr (priority t));
                ("due_date", JStr (JS.iso_of_time (tm / JS.msPerDay * JS.msPerDay)));
                ("user_id", JStr (user_id u))] (id t))].
Proof.
  destruct (default_due_date_plain_facts H t d tm Hdue Hfilled Hdate Hyear)
    as (ds & Hmount & Hplain & Hparse & Hds).
  rewrite Hmount. eexists. exists ds.
  split; [reflexivity|]. split; [reflexivity|].
  assert (Hz : -719528 <= tm / JS.msPerDay <= 2932896)
    by (unfold JS.msPerDay; zdiv).
  split.
  - rewrite (iso_of_time_midnight _ Hz), Hds.
    assert (Ht : -62167219200000 <= tm / JS.msPerDay * JS.msPerDay
                 <= 253402300799999) by (unfold JS.msPerDay in *; lia).
    destruct (iso_of_time_date _ Ht) as (y & m & dd & C & _ & _ & _ & _ & E).
    destruct (iso_of_time_date _ Hyear) as (y' & m' & dd' & C' & _ & _ & _ & _ & E').
    rewrite E, E'.
    replace (tm / JS.msPerDay * JS.msPerDay / JS.msPerDay) with (tm / JS.msPerDay) in C
      by (unfold JS.msPerDay; zdiv).
    rewrite C in C'. injection C' as <- <- <-. reflexivity.
  - apply (edit_unchanged_request H supabase u t st pr ds); try assumption.
    intros fd E. unfold TaskForm.due_date_outcome. rewrite E.
    assert (Nds : ds <> "").
    { intros ->. discriminate Hplain. }
    unfold JS.truthy. destruct (String.eqb_spec ds ""); [contradiction|].
    cbn [negb]. unfold JS.Date_of_string.
    rewrite (Hbook ds Hplain), Hparse. unfold JS.TimeClip.
    destruct (Z.leb_spec (Z.abs (tm / JS.msPerDay * JS.msPerDay)) JS.maxTime)
      as [_|Hbig]; [reflexivity|].
    unfold JS.msPerDay, JS.maxTime in *. lia.
Qed.

Lemma edit_unchanged_due_date_witness :
  exists s0 ds,
    TaskFormView.mount JS.browser (Some MoreSamples.review) tt
    = (tt, [], Normal s0)
    /\ TaskForm.v_due_date (TaskForm.form_values s0) = Some ds
    /\ JS.iso_of_time (1705246200000 / JS.msPerDay * JS.msPerDay)
       = ds ++ "T00:00:00.000Z"
    /\ filter is_request
         (trace_of (TaskForm.onSubmit JS.browser Sample.server_ok
                      (Some Sample.alice) (Some MoreSamples.review) s0))
       = [Ev_request
            (Update "tasks"
               [("title", JStr "Review budget");
                ("description", JStr "Q1 figures");
                ("status", JStr "in_progress");
                ("priority", JStr "medium");
                ("due_date",
                 JStr (JS.iso_of_time (1705246200000 / JS.msPerDay * JS.msPerDay)));
                ("user_id", JStr "u-42")] "t-2")].
Proof.
  apply (edit_unchanged_due_date JS.browser Sample.server_ok Sample.alice
           MoreSamples.review in_progress medium
           "2024-01-14T15:30:00.000Z" 1705246200000).
  - intros s _. reflexivity.
  - cbn. lia.
  - reflexivity.
  - reflexivity.
  - reflexivity.
  - discriminate.
  - reflexivity.
  - lia.
Defined.

Example edit_resets_time_of_day :
  filter is_request
    (trace_of (TaskForm.onSubmit JS.browser Sample.server_ok (Some Sample.alice)
                 (Some MoreSamples.review)
                 {| TaskForm.loading := false;
                    TaskForm.form_values :=
                      TaskFormView.defaultValues_literal (Some MoreSamples.review)
                        "2024-01-14";
                    TaskForm.errors := [] |}))
  = [Ev_request
       (Update "tasks"
          [("title", JStr "Review budget"); ("description", JStr "Q1 figures");
           ("status", JStr "in_progress"); ("priority", JStr "medium");
           ("due_date", JStr "2024-01-14T00:00:00.000Z");
           ("user_id", JStr "u-42")] "t-2")].
Proof. vm_compute. reflexivity. Qed.

(* ===================================================================== *)
(** ** The card: overdue over time, and what is shown *)
(* ===================================================================== *)

Lemma setHours0_day (H : JS.Host) :
  JS.setHours0 H (JS.Date_now H)
  = Clock.local_day H * JS.msPerDay - JS.LocalTZA H.
Proof. reflexivity. Qed.

(** X15. Whether a task is overdue depends on the clock through the local
    day only, and never goes back: two readings of the clock in the same
    local day give the same answer, and a task that is overdue stays
    overdue at every later reading of the clock. *)
Theorem isOverdue_over_time (H : JS.Host) (task : Task) (d : option string)
    (now : Z) :
  (Clock.local_day (Clock.at_time H now) = Clock.local_day H ->
   TaskCard.isOverdue (Clock.at_time H now) task d = TaskCard.isOverdue H task d)
  /\ (JS.Date_now H <= now ->
      TaskCard.isOverdue H task d = true ->
      TaskCard.isOverdue (Clock.at_time H now) task d = true).
Proof.
  split.
  - intros Hday. unfold TaskCard.isOverdue, TaskCard.today.
    rewrite !setHours0_day, Hday. reflexivity.
  - intros Hnow Hov. apply isOverdue_cases in Hov.
    destruct Hov as (s & t & -> & Hs & Hd & Hlt & Hst).
    apply isOverdue_cases. exists s, t.
    split; [reflexivity|]. split; [exact Hs|]. split; [exact Hd|].
    split; [|exact Hst].
    rewrite setHours0_day in *. unfold Clock.local_day in *.
    cbn [Clock.at_time JS.Date_now JS.LocalTZA].
    assert ((JS.Date_now H + JS.LocalTZA H) / JS.msPerDay
            <= (now + JS.LocalTZA H) / JS.msPerDay)
      by (apply Z.div_le_mono; [reflexivity | lia]).
    unfold JS.msPerDay in *. lia.
Qed.

Lemma isOverdue_over_time_witness :
  TaskCard.isOverdue (Clock.at_time JS.browser 1705500000000) Sample.report
    (due_date Sample.report) = true.
Proof.
  apply (proj2 (isOverdue_over_time JS.browser Sample.report
                  (due_date Sample.report) 1705500000000)).
  - cbn. lia.
  - reflexivity.
Defined.

(** X16. A due date is stored as the midnight, UTC, of its day.  On the
    local day with the same number, a task with such a due date that is
    not completed is shown as overdue exactly when local time is behind
    UTC: west of Greenwich a task due today is already overdue, at
    Greenwich and east of it it is not. *)
Theorem isOverdue_due_today (H : JS.Host) (task : Task) (s : string)
    (Hparse : JS.Date_of_string H s = Some (Clock.local_day H * JS.msPerDay))
    (Hfilled : s <> "")
    (Hopen : status task <> "completed") :
  TaskCard.isOverdue H task (Some s) = true <-> JS.LocalTZA H < 0.
Proof.
  rewrite isOverdue_cases, setHours0_day. split.
  - intros (s' & t & E & _ & D & Hlt & _). injection E as <-.
    rewrite Hparse in D. injection D as <-. lia.
  - intros Htz. exists s, (Clock.local_day H * JS.msPerDay).
    split; [reflexivity|]. split; [exact Hfilled|]. split; [exact Hparse|].
    split; [lia | exact Hopen].
Qed.

Lemma isOverdue_due_today_witness :
  TaskCard.isOverdue JS.browser Sample.report (Some "2024-01-15") = true.
Proof.
  apply (proj2 (isOverdue_due_today JS.browser Sample.report "2024-01-15"
                  eq_refl ltac:(discriminate) ltac:(discriminate))).
  reflexivity.
Defined.


Lemma replace_first_spec (c : ascii) (r s : string) :
  (JSString.occurs c s = false -> JSString.replace_first c r s = s)
  /\ (JSString.occurs c s = true ->
      exists p q, s = p ++ String c q /\ JSString.occurs c p = false
                  /\ JSString.replace_first c r s = p ++ r ++ q).
Proof.
  induction s as [|a s [IH1 IH2]]; cbn [JSString.occurs JSString.replace_first].
  - split; [reflexivity | discriminate].
  - destruct (Ascii.eqb_spec a c) as [->|N]; cbn [orb].
    + split; [discriminate|]. intros _. exists "", s. repeat split.
    + split.
      * intros Ho. now rewrite (IH1 Ho).
      * intros Ho. destruct (IH2 Ho) as (p & q & -> & Hp & E).
        exists (String a p), q. cbn [append JSString.occurs].
        destruct (Ascii.eqb_spec a c); [contradiction|]. cbn [orb].
        rewrite E. repeat split. exact Hp.
Qed.

(** X18. The label of the status badge is the status with its first
    underscore turned into a space: a status without underscore is shown
    as it is, later underscores stay, and each of the three status values
    gets a label without underscore. *)
Theorem status_label_spec (H : JS.Host) (toLocaleDateString : JS.Date -> string)
    (task : Task) (st : TaskCard.State) :
  let label :=
    TaskCardView.status_label (TaskCardView.render H toLocaleDateString task st) in
  (JSString.occurs "_" (status task) = false -> label = status task)
  /\ (JSString.occurs "_" (status task) = true ->
      exists p q, status task = p ++ "_" ++ q
                  /\ JSString.occurs "_" p = false
                  /\ label = p ++ " " ++ q)
  /\ (forall v : Status, status task = Status_value v ->
                         JSString.occurs "_" label = false).
Proof.
  intros label. subst label. unfold TaskCardView.render.
  cbn [TaskCardView.status_label].
  destruct (replace_first_spec "_" " " (status task)) as [H1 H2].
  split; [exact H1|]. split; [exact H2|].
  intros v ->. destruct v; reflexivity.
Qed.

Lemma status_label_spec_witness :
  exists p q,
    status MoreSamples.on_hold = p ++ "_" ++ q
    /\ JSString.occurs "_" p = false
    /\ TaskCardView.status_label
         (TaskCardView.render JS.browser (fun _ => "1/14/2024")
            MoreSamples.on_hold Sample.idle)
       = p ++ " " ++ q.
Proof.
  apply (proj1 (proj2 (status_label_spec JS.browser (fun _ => "1/14/2024")
                         MoreSamples.on_hold Sample.idle))).
  reflexivity.
Defined.

Example status_label_on_hold :
  TaskCardView.status_label
    (TaskCardView.render JS.browser (fun _ => "1/14/2024")
       MoreSamples.on_hold Sample.idle) = "on hold_now".
Proof. reflexivity. Qed.

(** X19. Deleting from the card's menu always asks the question first and
    asks it once.  The delete callback is called exactly when the user
    confirms, once, with the id of the card's task; when the user declines,
    nothing else happens. *)
Theorem handleDelete_confirmed (task : Task) (confirm : string -> bool) :
  let acts := TaskCardView.handleDelete task confirm in
  let question := "Are you sure you want to delete this task?" in
  hd_error acts = Some (TaskCardView.Ask_confirm question)
  /\ (forall i, In (TaskCardView.Call_onDelete i) acts ->
                confirm question = true /\ i = id task)
  /\ (confirm question = true ->
      acts = [TaskCardView.Ask_confirm question;
              TaskCardView.Call_onDelete (id task)])
  /\ (confirm question = false -> acts = [TaskCardView.Ask_confirm question]).
Proof.
  intros acts question. subst acts. unfold TaskCardView.handleDelete.
  fold question. destruct (confirm question).
  - split; [reflexivity|]. split; [|split; [reflexivity | discriminate]].
    intros i [E|[E|[]]]; [discriminate|]. injection E as <-. now split.
  - split; [reflexivity|]. split; [|split; [discriminate | reflexivity]].
    intros i [E|[]]. discriminate.
Qed.

Lemma handleDelete_confirmed_witness :
  TaskCardView.handleDelete Sample.report (fun _ => true)
  = [TaskCardView.Ask_confirm "Are you sure you want to delete this task?";
     TaskCardView.Call_onDelete "t-1"].
Proof.
  apply (proj1 (proj2 (proj2 (handleDelete_confirmed Sample.report (fun _ => true))))).
  reflexivity.
Defined.

(* ===================================================================== *)
(** ** The landing page *)
(* ===================================================================== *)

(** X20. The landing page navigates on its own only to the dashboard, and
    exactly when the check of the session is over and a user is signed in;
    while the spinner is shown it never navigates, so a redirect always
    comes with the landing content rendered.  Every button of the landing
    content leads to the sign-in page. *)
Theorem landing_redirect (user : option User) (loading : bool) :
  (Index.effect user loading = ["/dashboard"] <-> loading = false /\ user <> None)
  /\ (Index.effect user loading = [] <-> loading = true \/ user = None)
  /\ (Index.render loading = Index.Spinner -> Index.effect user loading = [])
  /\ (Index.effect user loading <> [] -> Index.render loading = Index.Landing)
  /\ (forall b, Index.click b = ["/auth"]).
Proof.
  assert (Hb : forall b, Index.click b = ["/auth"]) by (intros b; destruct b; reflexivity).
  unfold Index.effect, Index.render.
  destruct loading; destruct user as [u|]; cbn [negb andb].
  - split; [split; [discriminate | intros [E _]; discriminate]|].
    split; [split; [now left | reflexivity]|].
    split; [reflexivity|]. split; [intros N; now elim N | exact Hb].
  - split; [split; [discriminate | intros [E _]; discriminate]|].
    split; [split; [now left | reflexivity]|].
    split; [reflexivity|]. split; [intros N; now elim N | exact Hb].
  - split; [split; [intros _; split; [reflexivity | discriminate] | reflexivity]|].
    split; [split; [discriminate | intros [E|E]; discriminate]|].
    split; [discriminate|]. split; [reflexivity | exact Hb].
  - split; [split; [discriminate | intros [_ N]; now elim N]|].
    split; [split; [now right | reflexivity]|].
    split; [reflexivity|]. split; [intros N; now elim N | exact Hb].
Qed.
